(** * Showcase: the job-tracking clients of the Editor page

    Two variants of the Editor component observe a server-side generation
    job and render it as a chat timeline:

    - [Polling]   embeds src/frontend/src/pages/Editor.tsx (status poller,
                  result fetch, deadline timer);
    - [Streaming] embeds src/unnamed/part_001 (WebSocket session that
                  accumulates text fragments).

    React state is modelled by explicit state passing: every [setX] call of
    the source is a record update, functional updates [setX(prev => ...)]
    read the live record.  Values captured by a closure when it was created
    are kept in fields of their own. *)

From Stdlib Require Import String Ascii List NArith Bool Lia.
Import ListNotations.

(** ** JavaScript strings *)

Module JS.

(** A JS string is a sequence of UTF-16 code units. *)
Definition jsstring := list N.

(** Code units of an ASCII literal. *)
Definition str (s : string) : jsstring :=
  map N_of_ascii (list_ascii_of_string s).
Arguments str s%_string.

(** [a === b] on strings. *)
Fixpoint strict_eq (a b : jsstring) : bool :=
  match a, b with
  | [], [] => true
  | x :: a', y :: b' => N.eqb x y && strict_eq a' b'
  | _, _ => false
  end.

(** Truthiness of a string: only the empty string is falsy. *)
Definition truthy (s : jsstring) : bool :=
  match s with [] => false | _ :: _ => true end.

(** Truthiness of [string | null | undefined]. *)
Definition truthy_opt (o : option jsstring) : bool :=
  match o with Some s => truthy s | None => false end.

(** [o || d] where [o : string | null | undefined] and [d] is a string. *)
Definition or_else (o : option jsstring) (d : jsstring) : jsstring :=
  match o with
  | Some (c :: s) => c :: s
  | _ => d
  end.

Fixpoint startsWith (pat s : jsstring) : bool :=
  match pat, s with
  | [], _ => true
  | p :: pat', c :: s' => N.eqb p c && startsWith pat' s'
  | _ :: _, [] => false
  end.

(** [s.includes(pat)] *)
Fixpoint includes (s pat : jsstring) : bool :=
  startsWith pat s ||
  match s with
  | [] => false
  | _ :: s' => includes s' pat
  end.

(** WhiteSpace and LineTerminator code units, the ones [trim] strips:
    TAB, LF, VT, FF, CR, SP, NBSP, the Unicode space separators,
    LS, PS and the byte order mark. *)
Definition isWhiteSpace (c : N) : bool :=
  (((9 <=? c) && (c <=? 13)) || (c =? 32) || (c =? 160) || (c =? 5760) ||
   ((8192 <=? c) && (c <=? 8202)) || (c =? 8232) || (c =? 8233) ||
   (c =? 8239) || (c =? 8287) || (c =? 12288) || (c =? 65279))%N.

Fixpoint trimStart (s : jsstring) : jsstring :=
  match s with
  | c :: s' => if isWhiteSpace c then trimStart s' else s
  | [] => []
  end.

Definition trimEnd (s : jsstring) : jsstring := rev (trimStart (rev s)).

(** [s.trim()] *)
Definition trim (s : jsstring) : jsstring := trimEnd (trimStart s).

(** [parts.join(sep)] *)
Fixpoint join (sep : jsstring) (parts : list jsstring) : jsstring :=
  match parts with
  | [] => []
  | [p] => p
  | p :: rest => p ++ sep ++ join sep rest
  end.

(** Template-literal rendering of a percentage: an integer from 0 on,
    which JS prints digit by digit (below 10^21). *)
Fixpoint digits (u : Decimal.uint) : jsstring :=
  match u with
  | Decimal.Nil => []
  | Decimal.D0 u => 48%N :: digits u
  | Decimal.D1 u => 49%N :: digits u
  | Decimal.D2 u => 50%N :: digits u
  | Decimal.D3 u => 51%N :: digits u
  | Decimal.D4 u => 52%N :: digits u
  | Decimal.D5 u => 53%N :: digits u
  | Decimal.D6 u => 54%N :: digits u
  | Decimal.D7 u => 55%N :: digits u
  | Decimal.D8 u => 56%N :: digits u
  | Decimal.D9 u => 57%N :: digits u
  end.

Definition number_to_string (n : N) : jsstring := digits (N.to_uint n).

Definition LF : jsstring := [10%N].

End JS.
Import JS.

(** ** The timeline, common to both variants *)

Inductive Role := user | assistant.

Record Message := mkMessage { role : Role; content : jsstring }.

Definition Role_eqb (a b : Role) : bool :=
  match a, b with
  | user, user | assistant, assistant => true
  | _, _ => false
  end.

(** [prev[prev.length - 1]], [undefined] on the empty array. *)
Definition lastMsg (prev : list Message) : option Message :=
  match prev with
  | [] => None
  | _ => Some (last prev (mkMessage user []))
  end.

(** [prev.slice(0, -1)] *)
Definition slice_0_m1 (prev : list Message) : list Message := removelast prev.

(** [lastMsg?.role === "assistant"] *)
Definition lastIsAssistant (prev : list Message) : bool :=
  match lastMsg prev with
  | Some m => Role_eqb (role m) assistant
  | None => false
  end.

(** How many assistant messages of a timeline carry exactly [text]. *)
Definition countAssistant (text : jsstring) (l : list Message) : nat :=
  length (filter (fun m => Role_eqb (role m) assistant && strict_eq (content m) text) l).

(** ** Streaming variant: src/unnamed/part_001 *)

Module Streaming.

(** Component state.  [connections] counts the [new WebSocket(WS_URL)]
    calls made so far. *)
Record Chat := mkChat {
  messages : list Message;
  input : jsstring;
  isGenerating : bool;
  connections : nat
}.

(** What one [handleSend] call closes over: the text it sends, its
    accumulator and its socket (frames sent, whether [close] was called). *)
Record Session := mkSession {
  textToSend : jsstring;
  accumulatedResponse : jsstring;
  outbox : list jsstring;
  closed : bool
}.

Definition END_OF_STREAM : jsstring := str "__END_OF_STREAM__".

Definition connectionErrorText : jsstring :=
  [8218; 249; 229]%N ++ str " Connection Error. Please verify backend is running.".

Definition setMessages (f : list Message -> list Message) (c : Chat) : Chat :=
  mkChat (f (messages c)) (input c) (isGenerating c) (connections c).

Definition setInput (v : jsstring) (c : Chat) : Chat :=
  mkChat (messages c) v (isGenerating c) (connections c).

Definition setIsGenerating (b : bool) (c : Chat) : Chat :=
  mkChat (messages c) (input c) b (connections c).

Definition newWebSocket (c : Chat) : Chat :=
  mkChat (messages c) (input c) (isGenerating c) (S (connections c)).

(** [overrideInput || input] *)
Definition submittedText (overrideInput : option jsstring) (c : Chat) : jsstring :=
  or_else overrideInput (input c).

(** [handleSend(overrideInput?)]: [None] when it returns before opening a
    socket. *)
Definition handleSend (overrideInput : option jsstring) (c : Chat)
  : Chat * option Session :=
  let text := submittedText overrideInput c in
  if negb (truthy (trim text)) then (c, None)
  else
    let c1 := setMessages (fun prev => prev ++ [mkMessage user text]) c in
    let c2 := if negb (truthy_opt overrideInput) then setInput [] c1 else c1 in
    let c3 := setIsGenerating true c2 in
    (newWebSocket c3, Some (mkSession text [] [] false)).

(** [socket.onopen] *)
Definition onopen (w : Chat * Session) : Chat * Session :=
  let (c, k) := w in
  (c, mkSession (textToSend k) (accumulatedResponse k)
        (outbox k ++ [textToSend k]) (closed k)).

(** The functional update of [socket.onmessage]. *)
Definition showAccumulated (acc : jsstring) (prev : list Message) : list Message :=
  if lastIsAssistant prev
  then slice_0_m1 prev ++ [mkMessage assistant acc]
  else prev ++ [mkMessage assistant acc].

(** [socket.onmessage] *)
Definition onmessage (data : jsstring) (w : Chat * Session) : Chat * Session :=
  let (c, k) := w in
  if strict_eq data END_OF_STREAM then
    (setIsGenerating false c,
     mkSession (textToSend k) (accumulatedResponse k) (outbox k) true)
  else
    let acc := accumulatedResponse k ++ data in
    (setMessages (showAccumulated acc) c,
     mkSession (textToSend k) acc (outbox k) (closed k)).

(** [socket.onerror] *)
Definition onerror (w : Chat * Session) : Chat * Session :=
  let (c, k) := w in
  (setMessages (fun prev => prev ++ [mkMessage assistant connectionErrorText])
     (setIsGenerating false c), k).

(** What the socket of a session can report. *)
Inductive SocketEvent :=
  | Opened
  | Frame (data : jsstring)
  | Errored.

Definition dispatch (w : Chat * Session) (e : SocketEvent) : Chat * Session :=
  match e with
  | Opened => onopen w
  | Frame data => onmessage data w
  | Errored => onerror w
  end.

Definition deliver (es : list SocketEvent) (w : Chat * Session) : Chat * Session :=
  fold_left dispatch es w.

(** Inbound frames in arrival order. *)
Definition receive (frames : list jsstring) : Chat * Session -> Chat * Session :=
  deliver (map Frame frames).

(** A frame other than the end-of-stream sentinel. *)
Definition isFragment (data : jsstring) : bool := negb (strict_eq data END_OF_STREAM).

End Streaming.

(** ** Polling variant: src/frontend/src/pages/Editor.tsx *)

Module Polling.

Inductive JobStatus :=
  | pending | processing | ocr_extracting | ai_generating | validating
  | completed | failed | cancelled.

Definition JobStatus_eqb (a b : JobStatus) : bool :=
  match a, b with
  | pending, pending | processing, processing
  | ocr_extracting, ocr_extracting | ai_generating, ai_generating
  | validating, validating | completed, completed
  | failed, failed | cancelled, cancelled => true
  | _, _ => false
  end.

(** [error?: { message; details? }]; [details] is read by the renderer only. *)
Record JobError := mkJobError { message : jsstring }.

Record JobStatusData := mkJobStatusData {
  job_id : jsstring;
  status : JobStatus;
  progress_percentage : N;
  current_stage : option jsstring;
  error : option JobError;
  duration_seconds : option N;
  portfolio_id : option jsstring
}.

(** What a rejected [api.get] carries: [error.response?.status]. *)
Record AxiosError := mkAxiosError { response_status : option N }.

Inductive Reply (A : Type) :=
  | Resolved (data : A)
  | Rejected (e : AxiosError).
Arguments Resolved {A} data.
Arguments Rejected {A} e.

(** [portfolioResponse.data] is untyped: either nullish, on which the
    property reads of the logging call throw, or some document. *)
Inductive Payload :=
  | Nullish
  | Document (body : jsstring).

(** What the backend answers during one call of [pollJobStatus]; the
    second reply is consulted only if the portfolio request is made. *)
Record PollOutcome := mkPollOutcome {
  status_reply : Reply JobStatusData;
  portfolio_reply : Reply Payload
}.

Inductive Request :=
  | GetJob (jobId : jsstring)          (* api.get(`/jobs/${jobId}`) *)
  | GetPortfolio (jobId : jsstring).   (* api.get(`/portfolio/${jobId}`) *)

(** Component state, the two timer handles of the effect, the [jobStatus]
    value its closures captured, the requests issued and the
    [console.error] calls made so far, and the pending one-shot timers of
    [handleSend] (1500 ms) and of the effect's branch without job (2000 ms). *)
Record Editor := mkEditor {
  messages : list Message;
  input : jsstring;
  isGenerating : bool;
  jobStatus : option JobStatusData;
  portfolioData : option Payload;
  intervalId : bool;
  timeoutId : bool;
  capturedJobStatus : option JobStatusData;
  requests : list Request;
  consoleErrors : nat;
  replyTimers : nat;
  idleTimers : nat
}.

Definition setMessages (f : list Message -> list Message) (s : Editor) : Editor :=
  mkEditor (f (messages s)) (input s) (isGenerating s) (jobStatus s)
    (portfolioData s) (intervalId s) (timeoutId s) (capturedJobStatus s)
    (requests s) (consoleErrors s) (replyTimers s) (idleTimers s).

Definition setInput (v : jsstring) (s : Editor) : Editor :=
  mkEditor (messages s) v (isGenerating s) (jobStatus s)
    (portfolioData s) (intervalId s) (timeoutId s) (capturedJobStatus s)
    (requests s) (consoleErrors s) (replyTimers s) (idleTimers s).

Definition setIsGenerating (b : bool) (s : Editor) : Editor :=
  mkEditor (messages s) (input s) b (jobStatus s)
    (portfolioData s) (intervalId s) (timeoutId s) (capturedJobStatus s)
    (requests s) (consoleErrors s) (replyTimers s) (idleTimers s).

Definition setJobStatus (j : option JobStatusData) (s : Editor) : Editor :=
  mkEditor (messages s) (input s) (isGenerating s) j
    (portfolioData s) (intervalId s) (timeoutId s) (capturedJobStatus s)
    (requests s) (consoleErrors s) (replyTimers s) (idleTimers s).

Definition setPortfolioData (p : option Payload) (s : Editor) : Editor :=
  mkEditor (messages s) (input s) (isGenerating s) (jobStatus s)
    p (intervalId s) (timeoutId s) (capturedJobStatus s)
    (requests s) (consoleErrors s) (replyTimers s) (idleTimers s).

Definition withInterval (b : bool) (s : Editor) : Editor :=
  mkEditor (messages s) (input s) (isGenerating s) (jobStatus s)
    (portfolioData s) b (timeoutId s) (capturedJobStatus s)
    (requests s) (consoleErrors s) (replyTimers s) (idleTimers s).

Definition withTimeout (b : bool) (s : Editor) : Editor :=
  mkEditor (messages s) (input s) (isGenerating s) (jobStatus s)
    (portfolioData s) (intervalId s) b (capturedJobStatus s)
    (requests s) (consoleErrors s) (replyTimers s) (idleTimers s).

Definition capture (j : option JobStatusData) (s : Editor) : Editor :=
  mkEditor (messages s) (input s) (isGenerating s) (jobStatus s)
    (portfolioData s) (intervalId s) (timeoutId s) j
    (requests s) (consoleErrors s) (replyTimers s) (idleTimers s).

Definition apiGet (r : Request) (s : Editor) : Editor :=
  mkEditor (messages s) (input s) (isGenerating s) (jobStatus s)
    (portfolioData s) (intervalId s) (timeoutId s) (capturedJobStatus s)
    (requests s ++ [r]) (consoleErrors s) (replyTimers s) (idleTimers s).

Definition consoleError (n : nat) (s : Editor) : Editor :=
  mkEditor (messages s) (input s) (isGenerating s) (jobStatus s)
    (portfolioData s) (intervalId s) (timeoutId s) (capturedJobStatus s)
    (requests s) (n + consoleErrors s) (replyTimers s) (idleTimers s).

Definition withReplyTimers (n : nat) (s : Editor) : Editor :=
  mkEditor (messages s) (input s) (isGenerating s) (jobStatus s)
    (portfolioData s) (intervalId s) (timeoutId s) (capturedJobStatus s)
    (requests s) (consoleErrors s) n (idleTimers s).

Definition withIdleTimers (n : nat) (s : Editor) : Editor :=
  mkEditor (messages s) (input s) (isGenerating s) (jobStatus s)
    (portfolioData s) (intervalId s) (timeoutId s) (capturedJobStatus s)
    (requests s) (consoleErrors s) (replyTimers s) n.

Definition clearInterval : Editor -> Editor := withInterval false.
Definition clearTimeout : Editor -> Editor := withTimeout false.

(** [setMessages(prev => [...prev, { role: "assistant", content }])] *)
Definition say (text : jsstring) : Editor -> Editor :=
  setMessages (fun prev => prev ++ [mkMessage assistant text]).

(** *** Texts *)

Definition errorMessageOr (d : JobStatusData) : jsstring :=
  or_else (option_map message (error d)) (str "Unknown error").

Definition statusMessages (d : JobStatusData) (st : JobStatus) : jsstring :=
  match st with
  | pending => str "Job queued, waiting to start..."
  | processing => str "Initializing portfolio generation..."
  | ocr_extracting => str "Extracting text from your resume..."
  | ai_generating => str "AI is generating your portfolio content..."
  | validating => str "Validating and finalizing your portfolio..."
  | completed => str "Portfolio generation complete!"
  | failed => str "Generation failed: " ++ errorMessageOr d
  | cancelled => str "Job was cancelled"
  end.

Definition statusMessage (d : JobStatusData) : jsstring :=
  or_else (Some (statusMessages d (status d))) (str "Processing...").

Definition progressLine (d : JobStatusData) : jsstring :=
  statusMessage d ++ LF ++ LF ++
  str "Progress: " ++ number_to_string (progress_percentage d) ++ str "%" ++ LF ++
  str "Stage: " ++ or_else (current_stage d) (str "Initializing").

Definition completionText : jsstring :=
  [9989%N] ++
  str " Portfolio generation complete! Your portfolio is ready. Check the preview window.".

Definition failureText (d : JobStatusData) : jsstring :=
  [10060%N] ++ str " Portfolio generation failed." ++ LF ++ LF ++
  str "Error: " ++ errorMessageOr d ++ LF ++ LF ++
  str "Please try uploading your resume again.".

Definition jobNotFoundText : jsstring :=
  [10060%N] ++ str " Job not found. Please check your job ID and try again.".

Definition timeoutText : jsstring :=
  [9201; 65039]%N ++
  str " Polling timeout. Please check the job status manually or try again.".

Definition changesMadeText : jsstring :=
  str "I've made those changes. You can see the updated preview on the right.".

Definition receivedResumeText (attachedFile : option jsstring) (jobId : jsstring)
  : jsstring :=
  str "I've received your resume (" ++ or_else attachedFile (str "file") ++
  str "). Job ID: " ++ jobId ++ str "." ++ LF ++ LF ++
  str "I am currently analyzing the document to extract your skills, experience, and projects. Once done, I will generate your portfolio structure.".

Definition willHelpText (initialPrompt : jsstring) : jsstring :=
  str "I'll help you create that! Let me build a " ++
  (if includes initialPrompt (str "landing")
   then str "landing page" else str "web application") ++
  str " for you." ++ LF ++ LF ++ str "Generating your project structure...".

(** *** pollJobStatus *)

(** The functional update of lines 108-117. *)
Definition coalesce (d : JobStatusData) (prev : list Message) : list Message :=
  match lastMsg prev with
  | Some m =>
      if Role_eqb (role m) assistant && includes (content m) (str "analyzing")
      then slice_0_m1 prev ++ [mkMessage assistant (progressLine d)]
      else prev
  | None => prev
  end.

Definition status_is (code : N) (e : AxiosError) : bool :=
  match response_status e with
  | Some c => N.eqb c code
  | None => false
  end.

(** The [catch] of the portfolio request. *)
Definition portfolioCatch (e : AxiosError) (s : Editor) : Editor * bool :=
  if status_is 202 e || status_is 404 e
  then (s, false)
  else (consoleError 2 s, false).

(** The [catch] of the whole body. *)
Definition pollCatch (e : AxiosError) (s : Editor) : Editor * bool :=
  let s1 := consoleError 1 s in
  if status_is 404 e
  then (say jobNotFoundText (setIsGenerating false s1), true)
  else (s1, false).

(** Lines 92-117: overwrite the job snapshot and update the chat message. *)
Definition applySnapshot (d : JobStatusData) (s : Editor) : Editor :=
  setMessages (coalesce d) (setJobStatus (Some d) s).

(** One call of [pollJobStatus]; the boolean is its result ([true]: stop
    polling). *)
Definition pollJobStatus (jobId : jsstring) (o : PollOutcome) (s : Editor)
  : Editor * bool :=
  let s0 := apiGet (GetJob jobId) s in
  match status_reply o with
  | Rejected e => pollCatch e s0
  | Resolved statusData =>
      let s1 := applySnapshot statusData s0 in
      if JobStatus_eqb (status statusData) completed
         && truthy_opt (portfolio_id statusData)
      then
        let s2 := apiGet (GetPortfolio jobId) s1 in
        match portfolio_reply o with
        | Resolved (Document body) =>
            (setIsGenerating false
               (say completionText
                  (setPortfolioData (Some (Document body)) s2)), true)
        | Resolved Nullish => portfolioCatch (mkAxiosError None) s2
        | Rejected e => portfolioCatch e s2
        end
      else if JobStatus_eqb (status statusData) failed
      then (say (failureText statusData) (setIsGenerating false s1), true)
      else (s1, false)
  end.

(** *** The effect and its timers *)

(** Line 184: the first call, whose result is not read. *)
Definition initialPoll (jobId : jsstring) (o : PollOutcome) (s : Editor) : Editor :=
  fst (pollJobStatus jobId o s).

(** Lines 187-192: the interval callback, while the interval is armed. *)
Definition intervalTick (jobId : jsstring) (o : PollOutcome) (s : Editor) : Editor :=
  if intervalId s then
    let (s', shouldStop) := pollJobStatus jobId o s in
    if shouldStop then clearInterval s' else s'
  else s.

(** [jobStatus?.status !== "completed" && jobStatus?.status !== "failed"] *)
Definition notFinished (j : option JobStatusData) : bool :=
  match j with
  | Some d => negb (JobStatus_eqb (status d) completed)
              && negb (JobStatus_eqb (status d) failed)
  | None => true
  end.

(** Lines 195-204: the deadline callback, which reads the [jobStatus] its
    closure captured. *)
Definition deadline (s : Editor) : Editor :=
  if timeoutId s then
    let s1 := clearInterval (withTimeout false s) in
    if notFinished (capturedJobStatus s)
    then say timeoutText (setIsGenerating false s1)
    else s1
  else s.

(** Lines 206-209: the effect's cleanup. *)
Definition cleanup (s : Editor) : Editor := clearTimeout (clearInterval s).

Definition pendingJob (jobId : jsstring) : JobStatusData :=
  mkJobStatusData jobId pending 0 None None None None.

Definition userContent (initialPrompt : jsstring) (attachedFile jobId : option jsstring)
  : jsstring :=
  join LF
    ((if truthy initialPrompt then [initialPrompt] else []) ++
     (match attachedFile with
      | Some (c :: f) => [str "[Attached: " ++ (c :: f) ++ str "]"]
      | _ => []
      end) ++
     (match jobId with
      | Some (c :: j) => [str "[Job ID: " ++ (c :: j) ++ str "]"]
      | _ => []
      end)).

(** Lines 57-215: the body of the effect, up to and including the arming
    of both timers.  [prompt], [attachedFile] and [jobId] are the search
    parameters; the closures capture the [jobStatus] of the render that ran
    the effect. *)
Definition effect (prompt attachedFile jobId : option jsstring) (s : Editor) : Editor :=
  let initialPrompt := or_else prompt [] in
  if truthy initialPrompt || truthy_opt attachedFile || truthy_opt jobId then
    match jobId with
    | Some (c :: j) =>
        let id := c :: j in
        let s1 := setMessages (fun _ =>
                    [mkMessage user (userContent initialPrompt attachedFile jobId);
                     mkMessage assistant (receivedResumeText attachedFile id)]) s in
        let s2 := setJobStatus (Some (pendingJob id)) (setIsGenerating true s1) in
        withTimeout true (withInterval true (capture (jobStatus s) s2))
    | _ =>
        let s1 := setMessages (fun _ =>
                    [mkMessage user (userContent initialPrompt attachedFile jobId);
                     mkMessage assistant (willHelpText initialPrompt)]) s in
        withIdleTimers (S (idleTimers s1)) (setIsGenerating true s1)
    end
  else s.

(** The callback of the 2000 ms timer armed by the branch without job. *)
Definition idleTimerFired (s : Editor) : Editor :=
  match idleTimers s with
  | O => s
  | S n => setIsGenerating false (withIdleTimers n s)
  end.

(** What can happen to a mounted poller.  A call of [pollJobStatus] is one
    step: its requests are answered before the next event is handled. *)
Inductive Event :=
  | InitialPollSettled (o : PollOutcome)
  | IntervalFired (o : PollOutcome)
  | DeadlineFired
  | Unmounted.

Definition step (jobId : jsstring) (s : Editor) (e : Event) : Editor :=
  match e with
  | InitialPollSettled o => initialPoll jobId o s
  | IntervalFired o => intervalTick jobId o s
  | DeadlineFired => deadline s
  | Unmounted => cleanup s
  end.

Definition run (jobId : jsstring) (es : list Event) (s : Editor) : Editor :=
  fold_left (step jobId) es s.

(** The state of a freshly mounted component. *)
Definition mounted : Editor :=
  mkEditor [] [] false None None false false None [] 0 0 0.

(** The terminal states of the status graph. *)
Definition isTerminal (st : JobStatus) : bool :=
  match st with
  | completed | failed | cancelled => true
  | _ => false
  end.

(** The replies on which a tick ends the loop: a failed job, or a completed
    job that names its portfolio and whose portfolio request resolves with
    a document. *)
Definition stopsPolling (d : JobStatusData) (pr : Reply Payload) : bool :=
  match status d with
  | failed => true
  | completed =>
      truthy_opt (portfolio_id d) &&
      match pr with Resolved (Document _) => true | _ => false end
  | _ => false
  end.

(** Events that leave the effect in place: neither the deadline nor the
    cleanup. *)
Definition keepsEffect (e : Event) : bool :=
  match e with
  | InitialPollSettled _ | IntervalFired _ => true
  | DeadlineFired | Unmounted => false
  end.

(** *** handleSend *)

(** Lines 217-229, up to the arming of the reply timer. *)
Definition handleSend (s : Editor) : Editor :=
  if negb (truthy (trim (input s))) then s
  else
    let s1 := setMessages (fun prev => prev ++ [mkMessage user (input s)]) s in
    withReplyTimers (S (replyTimers s1)) (setIsGenerating true (setInput [] s1)).

(** The callback of the reply timer. *)
Definition replyTimerFired (s : Editor) : Editor :=
  match replyTimers s with
  | O => s
  | S n => setIsGenerating false (say changesMadeText (withReplyTimers n s))
  end.

End Polling.

(** ** Concrete pages, snapshots and replies *)

Module Scenarios.
Import Polling.

Definition job1 : jsstring := str "j1".

(** The Editor opened on [?fileName=cv.pdf&jobId=j1], after its effect. *)
Definition page : Editor :=
  effect None (Some (str "cv.pdf")) (Some job1) mounted.

Definition queued : JobStatusData :=
  mkJobStatusData job1 pending 0 None None None None.

Definition extracting : JobStatusData :=
  mkJobStatusData job1 ocr_extracting 30 (Some (str "ocr")) None None None.

Definition broken : JobStatusData :=
  mkJobStatusData job1 failed 30 (Some (str "ocr"))
    (Some (mkJobError (str "boom"))) None None.

Definition done : JobStatusData :=
  mkJobStatusData job1 completed 100 None None (Some 12%N) (Some (str "p1")).

Definition doneUnnamed : JobStatusData :=
  mkJobStatusData job1 completed 100 None None (Some 12%N) None.

Definition withdrawn : JobStatusData :=
  mkJobStatusData job1 cancelled 30 (Some (str "ocr")) None None None.

Definition httpError (code : N) : AxiosError := mkAxiosError (Some code).

Definition noReply : Reply Payload := Rejected (mkAxiosError None).

Definition document : Reply Payload := Resolved (Document (str "{}")).

Definition answers (d : JobStatusData) (pr : Reply Payload) : PollOutcome :=
  mkPollOutcome (Resolved d) pr.

Definition jobMissing : PollOutcome :=
  mkPollOutcome (Rejected (httpError 404)) noReply.

End Scenarios.

(** ** What the Editor renders: src/frontend/src/pages/Editor.tsx, lines 231-636 *)

Module PollingView.
Import Polling.

Inductive Icon := CheckCircle2 | XCircle | Loader2 | AlertCircle.

(** [status === "processing" || status === "ocr_extracting" ||
     status === "ai_generating" || status === "validating"] *)
Definition isRunning (st : JobStatus) : bool :=
  match st with
  | processing | ocr_extracting | ai_generating | validating => true
  | _ => false
  end.

(** [{cond && element}]: the element when the condition holds. *)
Definition when {A : Type} (cond : bool) (x : A) : list A :=
  if cond then [x] else [].

(** Line 290: the status alert is rendered under [jobId && jobStatus]. *)
Definition showsAlert (jobId : option jsstring) (s : Editor) : bool :=
  truthy_opt jobId && match jobStatus s with Some _ => true | None => false end.

(** Lines 294-299: the icons of the alert. *)
Definition alertIcons (st : JobStatus) : list Icon :=
  when (JobStatus_eqb st completed) CheckCircle2 ++
  when (JobStatus_eqb st failed) XCircle ++
  when (isRunning st) Loader2 ++
  when (JobStatus_eqb st pending) AlertCircle.

(** Lines 301-306: the texts of the alert title. *)
Definition alertTitle (st : JobStatus) : list jsstring :=
  when (JobStatus_eqb st completed) (str "Portfolio Ready!") ++
  when (JobStatus_eqb st failed) (str "Generation Failed") ++
  when (isRunning st) (str "Generating Portfolio...") ++
  when (JobStatus_eqb st pending) (str "Queued").

(** Line 308: the progress bar of the alert. *)
Definition showsProgress (st : JobStatus) : bool :=
  negb (JobStatus_eqb st completed) && negb (JobStatus_eqb st failed).

(** [current_stage.replace("_", " ")]: a string pattern is replaced at its
    first occurrence only. *)
Fixpoint replaceUnderscore (s : jsstring) : jsstring :=
  match s with
  | [] => []
  | c :: s' => if N.eqb c 95 then 32%N :: s' else c :: replaceUnderscore s'
  end.

(** Lines 317-321: the stage line of the alert, under [current_stage &&]. *)
Definition stageLine (d : JobStatusData) : list jsstring :=
  match current_stage d with
  | Some (c :: s) => [str "Stage: " ++ replaceUnderscore (c :: s)]
  | _ => []
  end.

(** Line 351: the typing dots, under [isGenerating && !jobStatus]. *)
Definition showsTyping (s : Editor) : bool :=
  isGenerating s && match jobStatus s with Some _ => false | None => true end.

(** Line 374: [disabled={!input.trim()}] on the send button. *)
Definition sendDisabled (s : Editor) : bool := negb (truthy (trim (input s))).

(** Lines 430-632: the chain of conditionals that picks the preview. *)
Inductive Panel := PortfolioPanel | SpinnerPanel | FailedPanel | PlaceholderPanel.

Definition previewPanel (portfolioTruthy : bool) (j : option JobStatusData) : Panel :=
  if portfolioTruthy then PortfolioPanel
  else if match j with
          | Some d => negb (JobStatus_eqb (status d) completed)
          | None => false
          end then SpinnerPanel
  else if match j with
          | Some d => JobStatus_eqb (status d) failed
          | None => false
          end then FailedPanel
  else PlaceholderPanel.

End PollingView.

(** ** The earlier Editor kept in the same file: Editor.tsx, lines 641-895 *)

Module Legacy.

(** Component state, the two timers of the effect, and the requests: how
    many [axios.get] calls were made and how many of them are still
    awaited.  The interval callback keeps nothing of its own between the
    request and the answer, so the requests in flight are counted. *)
Record Editor := mkEditor {
  messages : list Message;
  isGenerating : bool;
  intervalId : bool;          (* the 3000 ms interval is armed *)
  stopTimer : bool;           (* the 120000 ms timer is pending *)
  requests : nat;             (* axios.get calls made *)
  pending : nat;              (* axios.get calls not yet answered *)
  idleTimers : nat            (* pending 2000 ms timers of the branch without job *)
}.

(** What [axios.get] of the portfolio gives: a response with its status and
    the truthiness of its data, or a rejection. *)
Inductive PortfolioReply :=
  | Answered (status : N) (hasData : bool)
  | Failed.

Definition analysisCompleteText : jsstring :=
  str "Analysis complete! I've created your portfolio based on the resume. Check the preview window.".

Definition setMessages (f : list Message -> list Message) (s : Editor) : Editor :=
  mkEditor (f (messages s)) (isGenerating s) (intervalId s) (stopTimer s)
    (requests s) (pending s) (idleTimers s).

Definition setIsGenerating (b : bool) (s : Editor) : Editor :=
  mkEditor (messages s) b (intervalId s) (stopTimer s) (requests s) (pending s)
    (idleTimers s).

Definition withInterval (b : bool) (s : Editor) : Editor :=
  mkEditor (messages s) (isGenerating s) b (stopTimer s) (requests s) (pending s)
    (idleTimers s).

Definition withStopTimer (b : bool) (s : Editor) : Editor :=
  mkEditor (messages s) (isGenerating s) (intervalId s) b (requests s) (pending s)
    (idleTimers s).

(** [axios.get(...)] is called: one more request, awaited. *)
Definition axiosGet (s : Editor) : Editor :=
  mkEditor (messages s) (isGenerating s) (intervalId s) (stopTimer s)
    (S (requests s)) (S (pending s)) (idleTimers s).

Definition withPending (n : nat) (s : Editor) : Editor :=
  mkEditor (messages s) (isGenerating s) (intervalId s) (stopTimer s)
    (requests s) n (idleTimers s).

Definition withIdleTimers (n : nat) (s : Editor) : Editor :=
  mkEditor (messages s) (isGenerating s) (intervalId s) (stopTimer s) (requests s)
    (pending s) n.

Definition clearInterval : Editor -> Editor := withInterval false.

(** [response.status === 200 && response.data] *)
Definition ready (r : PortfolioReply) : bool :=
  match r with
  | Answered st hasData => N.eqb st 200 && hasData
  | Failed => false
  end.

(** Line 693-695: the interval callback fires, while the interval is
    armed, and calls [axios.get]; it does not look at earlier calls that
    are still awaited. *)
Definition intervalFired (s : Editor) : Editor :=
  if intervalId s then axiosGet s else s.

(** Lines 696-707: an awaited call is answered and its callback goes on. *)
Definition replyArrived (r : PortfolioReply) (s : Editor) : Editor :=
  match pending s with
  | O => s
  | S n =>
      let s0 := withPending n s in
      if ready r then
        setIsGenerating false
          (setMessages (fun prev => prev ++ [mkMessage assistant analysisCompleteText])
             (clearInterval s0))
      else s0
  end.

(** Line 711: [setTimeout(() => clearInterval(intervalId), 120000)]. *)
Definition stopTimerFired (s : Editor) : Editor :=
  if stopTimer s then clearInterval (withStopTimer false s) else s.

(** Line 713: the effect's cleanup. *)
Definition cleanup (s : Editor) : Editor := clearInterval s.

(** Lines 670-719: the body of the effect. *)
Definition effect (prompt attachedFile jobId : option jsstring) (s : Editor) : Editor :=
  let initialPrompt := or_else prompt [] in
  if truthy initialPrompt || truthy_opt attachedFile || truthy_opt jobId then
    match jobId with
    | Some (c :: j) =>
        let s1 := setMessages (fun _ =>
                    [mkMessage user (Polling.userContent initialPrompt attachedFile jobId);
                     mkMessage assistant (Polling.receivedResumeText attachedFile (c :: j))]) s in
        withStopTimer true (withInterval true (setIsGenerating true s1))
    | _ =>
        let s1 := setMessages (fun _ =>
                    [mkMessage user (Polling.userContent initialPrompt attachedFile jobId);
                     mkMessage assistant (Polling.willHelpText initialPrompt)]) s in
        withIdleTimers (S (idleTimers s1)) (setIsGenerating true s1)
    end
  else s.

Inductive Event :=
  | IntervalFired
  | ReplyArrived (r : PortfolioReply)
  | StopTimerFired
  | Unmounted.

Definition step (s : Editor) (e : Event) : Editor :=
  match e with
  | IntervalFired => intervalFired s
  | ReplyArrived r => replyArrived r s
  | StopTimerFired => stopTimerFired s
  | Unmounted => cleanup s
  end.

Definition run (es : list Event) (s : Editor) : Editor := fold_left step es s.


Definition mounted : Editor := mkEditor [] false false false 0 0 0.

End Legacy.

(** ** String-keyed objects: localStorage, headers, search parameters *)

Module Dict.

Definition t := list (jsstring * jsstring).

(** [getItem(key)], [obj[key]], [params.get(key)] *)
Fixpoint get (key : jsstring) (d : t) : option jsstring :=
  match d with
  | [] => None
  | (k, v) :: d' => if strict_eq key k then Some v else get key d'
  end.

(** [setItem(key, value)], [obj[key] = value], [params.set(key, value)]:
    an existing key keeps its place. *)
Fixpoint set (key value : jsstring) (d : t) : t :=
  match d with
  | [] => [(key, value)]
  | (k, v) :: d' =>
      if strict_eq key k then (key, value) :: d' else (k, v) :: set key value d'
  end.

(** [removeItem(key)] *)
Fixpoint remove (key : jsstring) (d : t) : t :=
  match d with
  | [] => []
  | (k, v) :: d' =>
      if strict_eq key k then remove key d' else (k, v) :: remove key d'
  end.

End Dict.

(** ** The axios instance: src/frontend/src/lib/api.ts *)

Module Api.

Record Config := mkConfig { url : jsstring; headers : Dict.t }.

(** Lines 11-21: the request interceptor, given the localStorage. *)
Definition requestInterceptor (localStorage : Dict.t) (config : Config) : Config :=
  match Dict.get (str "token") localStorage with
  | Some (c :: token) =>
      mkConfig (url config)
        (Dict.set (str "Authorization") (str "Bearer " ++ c :: token) (headers config))
  | _ => config
  end.

End Api.

(** ** Sign-in, sign-out and the route guard:
       src/unnamed/part_000 and src/frontend/src/components/Header.tsx *)

Module Auth.

(** The browser as these components use it: localStorage, the paths
    navigated to (latest last) and the [console.error] calls. *)
Record Browser := mkBrowser {
  localStorage : Dict.t;
  navigations : list jsstring;
  consoleErrors : nat
}.

Definition setItem (key value : jsstring) (b : Browser) : Browser :=
  mkBrowser (Dict.set key value (localStorage b)) (navigations b) (consoleErrors b).

Definition removeItem (key : jsstring) (b : Browser) : Browser :=
  mkBrowser (Dict.remove key (localStorage b)) (navigations b) (consoleErrors b).

Definition navigate (path : jsstring) (b : Browser) : Browser :=
  mkBrowser (localStorage b) (navigations b ++ [path]) (consoleErrors b).

Definition consoleError (b : Browser) : Browser :=
  mkBrowser (localStorage b) (navigations b) (S (consoleErrors b)).

(** How [signInWithPopup] followed by [getIdToken] ends. *)
Inductive SignIn :=
  | PopupRejected
  | TokenRejected
  | SignedIn (idToken : jsstring).

(** part_000, lines 12-37: [handleGoogleLogin]. *)
Definition handleGoogleLogin (o : SignIn) (b : Browser) : Browser :=
  match o with
  | SignedIn token => navigate (str "/") (setItem (str "token") token b)
  | _ => consoleError b
  end.

(** Header.tsx, lines 22-31: the [onAuthStateChanged] listener; the first
    component is the [user] state of the header. *)
Definition authStateChanged (currentUser : option jsstring)
           (w : option jsstring * Browser) : option jsstring * Browser :=
  (currentUser,
   match currentUser with
   | Some _ => snd w
   | None => removeItem (str "token") (snd w)
   end).

(** Header.tsx, lines 33-41: [handleLogout], given whether [signOut]
    resolves. *)
Definition handleLogout (signedOut : bool) (b : Browser) : Browser :=
  if signedOut
  then navigate (str "/login") (removeItem (str "token") b)
  else consoleError b.

(** Header.tsx, lines 102-111: [ProtectedRoute]. *)
Inductive Rendered := Children | NavigateTo (path : jsstring).

Definition ProtectedRoute (b : Browser) : Rendered :=
  if truthy_opt (Dict.get (str "token") (localStorage b))
  then Children
  else NavigateTo (str "/login").

End Auth.

(** ** GitHub OAuth callback: src/frontend/src/pages/auth/github/callback.tsx *)

Module GitHub.
Import Auth.

Inductive Status := loading | success | error.

(** A caught value: an [Error] with its message, or anything else. *)
Inductive Thrown :=
  | ErrorObject (message : jsstring)
  | OtherValue.

(** What [response.json()] gives: a rejection with an [Error], the value
    [null], on which a property read throws a [TypeError] with the given
    message, or a value whose [message] and [access_token] properties are
    strings when present. *)
Inductive Body :=
  | JsonRejected (message : jsstring)
  | JsonNull (typeError : jsstring)
  | JsonValue (message access_token : option jsstring).

Inductive FetchOutcome :=
  | FetchRejected (t : Thrown)
  | Responded (ok : bool) (body : Body).

(** Component state: [status], [errorMessage], the codes posted to the
    backend and the pending redirect timers (1500 ms). *)
Record Page := mkPage {
  status : Status;
  errorMessage : jsstring;
  posted : list jsstring;
  redirectTimers : nat
}.

Definition initial : Page := mkPage loading [] [] 0.

Definition failWith (text : jsstring) (p : Page) : Page :=
  mkPage error text (posted p) (redirectTimers p).

Definition authFailedText : jsstring := str "Failed to authenticate with GitHub".

(** [err instanceof Error ? err.message : "Authentication failed"] *)
Definition caughtMessage (t : Thrown) : jsstring :=
  match t with
  | ErrorObject m => m
  | OtherValue => str "Authentication failed"
  end.

(** Lines 28-61: [exchangeCode], once the request has settled. *)
Definition exchangeCode (code : jsstring) (o : FetchOutcome) (w : Page * Browser)
  : Page * Browser :=
  let (p, b) := w in
  let p0 := mkPage (status p) (errorMessage p) (posted p ++ [code]) (redirectTimers p) in
  match o with
  | FetchRejected t => (failWith (caughtMessage t) p0, b)
  | Responded false (JsonRejected _) => (failWith authFailedText p0, b)
  | Responded false (JsonNull m) => (failWith m p0, b)
  | Responded false (JsonValue msg _) => (failWith (or_else msg authFailedText) p0, b)
  | Responded true (JsonRejected m) => (failWith m p0, b)
  | Responded true (JsonNull m) => (failWith m p0, b)
  | Responded true (JsonValue _ token) =>
      (mkPage success (errorMessage p0) (posted p0) (S (redirectTimers p0)),
       match token with
       | Some (c :: t) => setItem (str "auth_token") (c :: t) b
       | _ => b
       end)
  end.

(** Lines 10-64: the effect, with the search parameters [code], [error]
    and [error_description]. *)
Definition effect (code err errorDescription : option jsstring) (o : FetchOutcome)
           (w : Page * Browser) : Page * Browser :=
  match err with
  | Some (c :: e) =>
      (failWith (or_else errorDescription
                   (or_else err (str "GitHub authentication failed"))) (fst w),
       snd w)
  | _ =>
      match code with
      | Some (c :: k) => exchangeCode (c :: k) o w
      | _ => (failWith (str "No authorization code received from GitHub") (fst w), snd w)
      end
  end.

(** The callback of a redirect timer: [navigate("/", { replace: true })]. *)
Definition redirectTimerFired (w : Page * Browser) : Page * Browser :=
  match redirectTimers (fst w) with
  | O => w
  | S n => (mkPage (status (fst w)) (errorMessage (fst w)) (posted (fst w)) n,
            navigate (str "/") (snd w))
  end.

End GitHub.

(** ** The landing prompt box: src/frontend/src/components/Hero.tsx *)

Module Hero.

Record File := mkFile { name : jsstring; type : jsstring }.

Inductive Toast :=
  | ToastSuccess (text : jsstring)
  | ToastError (text : jsstring).

(** Component state; [navigations] holds the search parameters of each
    [navigate(`/editor?${params}`)], [uploads] the files posted. *)
Record Box := mkBox {
  prompt : jsstring;
  file : option File;
  isUploading : bool;
  toasts : list Toast;
  navigations : list Dict.t;
  uploads : list File;
  consoleErrors : nat
}.

Definition setFile (f : option File) (s : Box) : Box :=
  mkBox (prompt s) f (isUploading s) (toasts s) (navigations s) (uploads s)
    (consoleErrors s).

Definition setIsUploading (b : bool) (s : Box) : Box :=
  mkBox (prompt s) (file s) b (toasts s) (navigations s) (uploads s)
    (consoleErrors s).

Definition toast (t : Toast) (s : Box) : Box :=
  mkBox (prompt s) (file s) (isUploading s) (toasts s ++ [t]) (navigations s)
    (uploads s) (consoleErrors s).

Definition navigate (params : Dict.t) (s : Box) : Box :=
  mkBox (prompt s) (file s) (isUploading s) (toasts s) (navigations s ++ [params])
    (uploads s) (consoleErrors s).

Definition axiosPost (f : File) (s : Box) : Box :=
  mkBox (prompt s) (file s) (isUploading s) (toasts s) (navigations s)
    (uploads s ++ [f]) (consoleErrors s).

Definition consoleError (s : Box) : Box :=
  mkBox (prompt s) (file s) (isUploading s) (toasts s) (navigations s)
    (uploads s) (S (consoleErrors s)).

(** How the upload request ends: a response whose data is not nullish,
    with the [job_id] it carries if any (an empty body included), a
    response whose data is [null] or [undefined], on which reading
    [job_id] throws, or a rejection. *)
Inductive UploadReply :=
  | Uploaded (job_id : option jsstring)
  | UploadedNoData
  | UploadRejected.

(** Lines 38-41: the search parameters handed to the editor. *)
Definition editorParams (prompt : jsstring) (jobId : option jsstring)
           (file : option File) : Dict.t :=
  let p1 := if truthy (trim prompt) then Dict.set (str "prompt") prompt [] else [] in
  let p2 := match jobId with
            | Some (c :: j) => Dict.set (str "jobId") (c :: j) p1
            | _ => p1
            end in
  match file with
  | Some f => Dict.set (str "fileName") (name f) p2
  | None => p2
  end.

(** Lines 15-52: [handleSubmit], once the upload (if any) has settled. *)
Definition handleSubmit (r : UploadReply) (s : Box) : Box :=
  if negb (truthy (trim (prompt s))) && match file s with Some _ => false | None => true end
  then s
  else
    match file s with
    | Some f =>
        let s1 := axiosPost f (setIsUploading true s) in
        match r with
        | Uploaded jobId =>
            setIsUploading false
              (navigate (editorParams (prompt s) jobId (file s))
                 (toast (ToastSuccess (str "Resume uploaded successfully!")) s1))
        | _ =>
            setIsUploading false
              (toast (ToastError (str "Failed to upload resume. Please try again."))
                 (consoleError s1))
        end
    | None =>
        setIsUploading false (navigate (editorParams (prompt s) None None) s)
    end.

(** Lines 54-59: [handleKeyDown]. *)
Definition handleKeyDown (key : jsstring) (shiftKey : bool) (r : UploadReply)
           (s : Box) : Box :=
  if strict_eq key (str "Enter") && negb shiftKey then handleSubmit r s else s.

(** [type === "application/pdf" || type.startsWith("image/")] *)
Definition acceptable (f : File) : bool :=
  strict_eq (type f) (str "application/pdf") || startsWith (str "image/") (type f).

(** Lines 65-76: [handleFileChange], with the files of the input. *)
Definition handleFileChange (files : list File) (s : Box) : Box :=
  match files with
  | selectedFile :: _ =>
      if acceptable selectedFile
      then toast (ToastSuccess (str "Attached " ++ name selectedFile))
             (setFile (Some selectedFile) s)
      else toast (ToastError (str "Please upload a PDF or Image file")) s
  | [] => s
  end.

(** Lines 78-81: [removeFile]. *)
Definition removeFile (s : Box) : Box := setFile None s.

(** Line 168: [disabled] of the submit button. *)
Definition submitDisabled (s : Box) : bool :=
  (negb (truthy (trim (prompt s))) && match file s with Some _ => false | None => true end)
  || isUploading s.

Inductive Event :=
  | PromptTyped (text : jsstring)
  | FilesChosen (files : list File)
  | FileRemoved
  | Submitted (r : UploadReply)
  | KeyDown (key : jsstring) (shiftKey : bool) (r : UploadReply).

Definition setPrompt (text : jsstring) (s : Box) : Box :=
  mkBox text (file s) (isUploading s) (toasts s) (navigations s) (uploads s)
    (consoleErrors s).

Definition step (s : Box) (e : Event) : Box :=
  match e with
  | PromptTyped text => setPrompt text s
  | FilesChosen files => handleFileChange files s
  | FileRemoved => removeFile s
  | Submitted r => handleSubmit r s
  | KeyDown key shiftKey r => handleKeyDown key shiftKey r s
  end.

Definition run (es : list Event) (s : Box) : Box := fold_left step es s.

Definition initial : Box := mkBox [] None false [] [] [] 0.

End Hero.

(** ** From the route to the Editor: src/frontend/src/App.tsx *)

Module App.

(** Lines 52-59 of App.tsx with lines 43-46 of Editor.tsx: the /editor
    route renders the Editor inside [ProtectedRoute], and the Editor's
    effect reads [prompt], [fileName] and [jobId] from the search
    parameters, which are taken to arrive as the prompt box set them. *)
Definition editorRoute (b : Auth.Browser) (params : Dict.t) : option Polling.Editor :=
  match Auth.ProtectedRoute b with
  | Auth.Children =>
      Some (Polling.effect (Dict.get (str "prompt") params)
              (Dict.get (str "fileName") params)
              (Dict.get (str "jobId") params) Polling.mounted)
  | Auth.NavigateTo _ => None
  end.

End App.

(** ** What axios makes of an HTTP answer *)

Module Http.
Import Polling.

(** The answer of the backend as it travels: a status code with the parsed
    body, or no answer at all. *)
Inductive HttpReply (A : Type) :=
  | HttpResponse (code : N) (data : A)
  | NoResponse.
Arguments HttpResponse {A} code data.
Arguments NoResponse {A}.

(** api.ts creates the instance with a [baseURL] only, so the default
    [validateStatus] of axios decides: a response resolves the promise
    when [200 <= status < 300] and rejects it otherwise, the error
    carrying the response; without a response the error carries none. *)
Definition axiosSettle {A : Type} (h : HttpReply A) : Reply A :=
  match h with
  | HttpResponse code data =>
      if (200 <=? code)%N && (code <? 300)%N
      then Resolved data
      else Rejected (mkAxiosError (Some code))
  | NoResponse => Rejected (mkAxiosError None)
  end.

End Http.

(** ** The poller with its requests in flight

    [setInterval] does not wait for the promise of its callback: a call of
    [pollJobStatus] that is still awaiting an answer goes on when the
    answer arrives, whatever has happened to the timers meanwhile.  Here a
    call is split at its two [await]s. *)

Module InFlight.
Import Polling.

(** Who called [pollJobStatus]: line 184, which drops the result, or the
    interval callback of line 188, which reads it. *)
Inductive Origin := FirstCall | IntervalCall.

(** Where a call stands: awaiting the job status, awaiting the portfolio
    (with the [statusData] it holds), or returned with its result. *)
Inductive Phase :=
  | AwaitingStatus
  | AwaitingPortfolio (statusData : JobStatusData)
  | Returned (shouldStop : bool).

Record Poll := mkPoll { origin : Origin; phase : Phase }.

Record World := mkWorld { editor : Editor; polls : list Poll }.

(** Line 90: the call starts with the status request. *)
Definition start (jobId : jsstring) (from : Origin) (w : World) : World :=
  mkWorld (apiGet (GetJob jobId) (editor w))
    (polls w ++ [mkPoll from AwaitingStatus]).

(** Lines 91-118 and 157-180: the call goes on after the status request. *)
Definition afterStatus (jobId : jsstring) (r : Reply JobStatusData) (s : Editor)
  : Editor * Phase :=
  match r with
  | Rejected e => let (s', b) := pollCatch e s in (s', Returned b)
  | Resolved statusData =>
      let s1 := applySnapshot statusData s in
      if JobStatus_eqb (status statusData) completed
         && truthy_opt (portfolio_id statusData)
      then (apiGet (GetPortfolio jobId) s1, AwaitingPortfolio statusData)
      else if JobStatus_eqb (status statusData) failed
      then (say (failureText statusData) (setIsGenerating false s1), Returned true)
      else (s1, Returned false)
  end.

(** Lines 123-154: the call goes on after the portfolio request. *)
Definition afterPortfolio (r : Reply Payload) (s : Editor) : Editor * bool :=
  match r with
  | Resolved (Document body) =>
      (setIsGenerating false
         (say completionText (setPortfolioData (Some (Document body)) s)), true)
  | Resolved Nullish => portfolioCatch (mkAxiosError None) s
  | Rejected e => portfolioCatch e s
  end.

(** What the caller does with the result: lines 188-191, or nothing. *)
Definition resume (from : Origin) (shouldStop : bool) (s : Editor) : Editor :=
  match from with
  | IntervalCall => if shouldStop then clearInterval s else s
  | FirstCall => s
  end.

Fixpoint setPhase (i : nat) (ph : Phase) (ps : list Poll) : list Poll :=
  match ps, i with
  | [], _ => []
  | p :: ps', O => mkPoll (origin p) ph :: ps'
  | p :: ps', S i' => p :: setPhase i' ph ps'
  end.

Inductive Event :=
  | IntervalFired
  | StatusArrived (i : nat) (r : Reply JobStatusData)
  | PortfolioArrived (i : nat) (r : Reply Payload)
  | DeadlineFired
  | Unmounted.

Definition step (jobId : jsstring) (w : World) (e : Event) : World :=
  match e with
  | IntervalFired =>
      if intervalId (editor w) then start jobId IntervalCall w else w
  | StatusArrived i r =>
      match nth_error (polls w) i with
      | Some (mkPoll from AwaitingStatus) =>
          let (s', ph) := afterStatus jobId r (editor w) in
          mkWorld (match ph with
                   | Returned b => resume from b s'
                   | _ => s'
                   end)
            (setPhase i ph (polls w))
      | _ => w
      end
  | PortfolioArrived i r =>
      match nth_error (polls w) i with
      | Some (mkPoll from (AwaitingPortfolio _)) =>
          let (s', b) := afterPortfolio r (editor w) in
          mkWorld (resume from b s') (setPhase i (Returned b) (polls w))
      | _ => w
      end
  | DeadlineFired => mkWorld (deadline (editor w)) (polls w)
  | Unmounted => mkWorld (cleanup (editor w)) (polls w)
  end.

Definition run (jobId : jsstring) (es : list Event) (w : World) : World :=
  fold_left (step jobId) es w.

(** The status requests among the requests made. *)
Definition statusRequests (rs : list Request) : nat :=
  length (filter (fun r => match r with GetJob _ => true | GetPortfolio _ => false end) rs).

(** No call is awaiting an answer. *)
Definition allReturned (ps : list Poll) : bool :=
  forallb (fun p => match phase p with Returned _ => true | _ => false end) ps.

End InFlight.

(** ** Measures used in the statements *)

(** The user's turns of a timeline, in order. *)
Definition userMessages (l : list Message) : list Message :=
  filter (fun m => Role_eqb (role m) user) l.

(** The events raised by the effect's timers and by its cleanup, as
    opposed to the settling of the first poll. *)
Definition isTimerEvent (e : Polling.Event) : bool :=
  match e with
  | Polling.InitialPollSettled _ => false
  | _ => true
  end.

Module StreamingView.

(** part_001, line 140: [disabled={!input.trim() || isGenerating}]. *)
Definition sendDisabled (c : Streaming.Chat) : bool :=
  negb (truthy (trim (Streaming.input c))) || Streaming.isGenerating c.

End StreamingView.

(** ** Facts about JS strings and the timeline helpers *)

Module JSFacts.

Lemma trimStart_blank (s : jsstring) :
  forallb isWhiteSpace s = true -> trimStart s = [].
Proof.
  induction s as [|c s IH]; simpl; [reflexivity|].
  intros H. apply andb_true_iff in H as [Hc Hs].
  rewrite Hc. now apply IH.
Qed.

Lemma trim_blank (s : jsstring) :
  forallb isWhiteSpace s = true -> trim s = [].
Proof.
  intros H. unfold trim, trimEnd. now rewrite (trimStart_blank s H).
Qed.

Lemma startsWith_app (p s t : jsstring) :
  startsWith p s = true -> startsWith p (s ++ t) = true.
Proof.
  revert s; induction p as [|x p IH]; intros [|c s]; simpl; try easy.
  intros H. apply andb_true_iff in H as [H1 H2].
  rewrite H1. now apply IH.
Qed.

Lemma startsWith_self (p t : jsstring) : startsWith p (p ++ t) = true.
Proof.
  induction p as [|x p IH]; simpl; [reflexivity|].
  now rewrite N.eqb_refl.
Qed.

Lemma includes_app_l (s t p : jsstring) :
  includes s p = true -> includes (s ++ t) p = true.
Proof.
  induction s as [|c s IH]; simpl.
  - rewrite orb_false_r. intros H. destruct p; [|discriminate].
    destruct t; reflexivity.
  - intros H. apply orb_true_iff in H as [H|H].
    + change (c :: s ++ t) with ((c :: s) ++ t).
      now rewrite (startsWith_app p (c :: s) t H).
    + rewrite (IH H). apply orb_true_r.
Qed.

Lemma includes_app_r (s t p : jsstring) :
  includes t p = true -> includes (s ++ t) p = true.
Proof.
  intros H. induction s as [|c s IH]; simpl; [exact H|].
  rewrite IH. apply orb_true_r.
Qed.

(** A string contains each of its infixes. *)
Lemma includes_infix (a m b : jsstring) : includes (a ++ m ++ b) m = true.
Proof.
  apply includes_app_r.
  destruct m as [|x m]; [destruct b; reflexivity|].
  simpl. rewrite N.eqb_refl, startsWith_self. reflexivity.
Qed.

Lemma includes_nil (s : jsstring) : includes s [] = true.
Proof. destruct s; reflexivity. Qed.

Lemma strict_eq_refl (a : jsstring) : strict_eq a a = true.
Proof.
  induction a as [|x a IH]; simpl; [reflexivity|].
  now rewrite N.eqb_refl.
Qed.

Lemma lastMsg_snoc (pre : list Message) (m : Message) :
  lastMsg (pre ++ [m]) = Some m.
Proof.
  unfold lastMsg. rewrite last_last.
  destruct pre; reflexivity.
Qed.

Lemma slice_snoc (pre : list Message) (m : Message) :
  slice_0_m1 (pre ++ [m]) = pre.
Proof. apply removelast_last. Qed.

Lemma snoc_cases (l : list Message) :
  l = [] \/ exists pre m, l = pre ++ [m].
Proof.
  destruct l as [|x l]; [now left|right].
  destruct (exists_last (l := x :: l)) as [pre [m E]]; [discriminate|].
  now exists pre, m.
Qed.

Lemma lastIsAssistant_snoc (pre : list Message) (m : Message) :
  lastIsAssistant (pre ++ [m]) = Role_eqb (role m) assistant.
Proof. unfold lastIsAssistant. now rewrite lastMsg_snoc. Qed.

End JSFacts.
Import JSFacts.

(** ** Streaming session: properties *)

Module StreamingProps.
Import Streaming.

Lemma onmessage_fragment (data : jsstring) (c : Chat) (k : Session) :
  isFragment data = true ->
  onmessage data (c, k) =
  (setMessages (showAccumulated (accumulatedResponse k ++ data)) c,
   mkSession (textToSend k) (accumulatedResponse k ++ data) (outbox k) (closed k)).
Proof.
  unfold isFragment, onmessage. intros H.
  apply negb_true_iff in H. now rewrite H.
Qed.

Lemma showAccumulated_replace (acc : jsstring) (pre : list Message) (m : Message) :
  role m = assistant ->
  showAccumulated acc (pre ++ [m]) = pre ++ [mkMessage assistant acc].
Proof.
  intros H. unfold showAccumulated.
  now rewrite lastIsAssistant_snoc, H, slice_snoc.
Qed.

Lemma showAccumulated_append (acc : jsstring) (prev : list Message) :
  lastIsAssistant prev = false ->
  showAccumulated acc prev = prev ++ [mkMessage assistant acc].
Proof. intros H. unfold showAccumulated. now rewrite H. Qed.






Lemma dispatch_connections (w : Chat * Session) (e : SocketEvent) :
  connections (fst (dispatch w e)) = connections (fst w).
Proof.
  destruct w as [c k], e as [|data|]; simpl; try reflexivity.
  destruct (strict_eq data END_OF_STREAM); reflexivity.
Qed.

Lemma deliver_connections (es : list SocketEvent) (w : Chat * Session) :
  connections (fst (deliver es w)) = connections (fst w).
Proof.
  unfold deliver. revert w.
  induction es as [|e es IH]; intros w; simpl; [reflexivity|].
  now rewrite IH, dispatch_connections.
Qed.



(** C8. The error handler of a session clears the generating flag and
    appends exactly one assistant message, whose text is the mark of the
    source followed by " Connection Error. Please verify backend is
    running." and so names the connection error; it opens no socket,
    sends nothing and leaves the session as it was, and whatever the
    socket reports afterwards no connection is opened. *)
Theorem connection_error_reported_once (c : Chat) (k : Session)
        (es : list SocketEvent) :
  let (c', k') := onerror (c, k) in
  isGenerating c' = false /\
  messages c' = messages c ++ [mkMessage assistant connectionErrorText] /\
  messages c' =
    messages c ++
    [mkMessage assistant
       ([8218; 249; 229]%N ++
        str " Connection Error. Please verify backend is running.")] /\
  includes connectionErrorText (str "Connection Error") = true /\
  length (messages c') = S (length (messages c)) /\
  input c' = input c /\
  connections c' = connections c /\
  k' = k /\
  connections (fst (deliver es (c', k'))) = connections c.
Proof.
  cbn [onerror]. split; [reflexivity|]. split; [reflexivity|].
  split; [reflexivity|]. split; [reflexivity|].
  split; [cbn [messages setMessages setIsGenerating]; rewrite length_app; simpl; lia|].
  repeat split. now rewrite deliver_connections.
Qed.

End StreamingProps.

(** ** Status poller: properties *)

Module PollingProps.
Import Polling.

Lemma coalesce_replace (d : JobStatusData) (pre : list Message) (m : Message) :
  role m = assistant -> includes (content m) (str "analyzing") = true ->
  coalesce d (pre ++ [m]) = pre ++ [mkMessage assistant (progressLine d)].
Proof.
  intros Hr Hi. unfold coalesce.
  now rewrite lastMsg_snoc, Hr, Hi, slice_snoc.
Qed.

Lemma coalesce_keep (d : JobStatusData) (pre : list Message) (m : Message) :
  role m = user \/ includes (content m) (str "analyzing") = false ->
  coalesce d (pre ++ [m]) = pre ++ [m].
Proof.
  intros H. unfold coalesce. rewrite lastMsg_snoc.
  destruct H as [-> | ->]; [reflexivity|].
  now rewrite andb_false_r.
Qed.

Lemma coalesce_length (d : JobStatusData) (prev : list Message) :
  length (coalesce d prev) = length prev.
Proof.
  destruct (snoc_cases prev) as [-> | (pre & m & ->)]; [reflexivity|].
  unfold coalesce. rewrite lastMsg_snoc.
  destruct (_ && _); [|reflexivity].
  now rewrite slice_snoc, !length_app.
Qed.

Lemma coalesce_idempotent (d : JobStatusData) (prev : list Message) :
  coalesce d (coalesce d prev) = coalesce d prev.
Proof.
  destruct (snoc_cases prev) as [-> | (pre & m & ->)]; [reflexivity|].
  assert (E : coalesce d (pre ++ [m]) = pre ++ [m] \/
              coalesce d (pre ++ [m]) = pre ++ [mkMessage assistant (progressLine d)]).
  { unfold coalesce. rewrite lastMsg_snoc, slice_snoc.
    destruct (_ && _); [now right | now left]. }
  destruct E as [E | E].
  - now rewrite !E.
  - rewrite !E. unfold coalesce. rewrite lastMsg_snoc, slice_snoc.
    now destruct (_ && _).
Qed.

(** The acknowledgement written by the effect is one of the messages that
    [coalesce] replaces. *)
Lemma acknowledgement_mentions_analyzing (file : option jsstring) (id : jsstring) :
  includes (receivedResumeText file id) (str "analyzing") = true.
Proof.
  unfold receivedResumeText.
  do 7 apply includes_app_r. reflexivity.
Qed.

(** What a call does on each kind of reply. *)

Lemma poll_rejected (jobId : jsstring) (e : AxiosError) (pr : Reply Payload) (s : Editor) :
  pollJobStatus jobId (mkPollOutcome (Rejected e) pr) s =
  pollCatch e (apiGet (GetJob jobId) s).
Proof. reflexivity. Qed.

Lemma poll_continue (jobId : jsstring) (d : JobStatusData) (pr : Reply Payload) (s : Editor) :
  status d <> completed -> status d <> failed ->
  pollJobStatus jobId (mkPollOutcome (Resolved d) pr) s =
  (applySnapshot d (apiGet (GetJob jobId) s), false).
Proof.
  intros Hc Hf. unfold pollJobStatus; cbn [status_reply portfolio_reply].
  destruct (status d); try reflexivity; congruence.
Qed.

Lemma poll_failed (jobId : jsstring) (d : JobStatusData) (pr : Reply Payload) (s : Editor) :
  status d = failed ->
  pollJobStatus jobId (mkPollOutcome (Resolved d) pr) s =
  (say (failureText d)
     (setIsGenerating false (applySnapshot d (apiGet (GetJob jobId) s))), true).
Proof.
  intros H. unfold pollJobStatus; cbn [status_reply portfolio_reply].
  now rewrite H.
Qed.

Lemma poll_completed_unnamed (jobId : jsstring) (d : JobStatusData) (pr : Reply Payload)
      (s : Editor) :
  status d = completed -> truthy_opt (portfolio_id d) = false ->
  pollJobStatus jobId (mkPollOutcome (Resolved d) pr) s =
  (applySnapshot d (apiGet (GetJob jobId) s), false).
Proof.
  intros H Hp. unfold pollJobStatus; cbn [status_reply portfolio_reply].
  now rewrite H, Hp.
Qed.

Lemma poll_completed_ready (jobId : jsstring) (d : JobStatusData) (body : jsstring)
      (s : Editor) :
  status d = completed -> truthy_opt (portfolio_id d) = true ->
  pollJobStatus jobId (mkPollOutcome (Resolved d) (Resolved (Document body))) s =
  (setIsGenerating false
     (say completionText
        (setPortfolioData (Some (Document body))
           (apiGet (GetPortfolio jobId)
              (applySnapshot d (apiGet (GetJob jobId) s))))), true).
Proof.
  intros H Hp. unfold pollJobStatus; cbn [status_reply portfolio_reply].
  now rewrite H, Hp.
Qed.

Lemma poll_completed_caught (jobId : jsstring) (d : JobStatusData) (e : AxiosError)
      (s : Editor) :
  status d = completed -> truthy_opt (portfolio_id d) = true ->
  pollJobStatus jobId (mkPollOutcome (Resolved d) (Rejected e)) s =
  portfolioCatch e
    (apiGet (GetPortfolio jobId) (applySnapshot d (apiGet (GetJob jobId) s))).
Proof.
  intros H Hp. unfold pollJobStatus; cbn [status_reply portfolio_reply].
  now rewrite H, Hp.
Qed.

(** No call of [pollJobStatus] touches a timer handle or the captured
    snapshot, and the result of the portfolio request never ends a call
    with [true] unless it resolved. *)
Lemma poll_keeps_timers (jobId : jsstring) (o : PollOutcome) (s : Editor) :
  let s' := fst (pollJobStatus jobId o s) in
  intervalId s' = intervalId s /\ timeoutId s' = timeoutId s /\
  capturedJobStatus s' = capturedJobStatus s.
Proof.
  destruct o as [[d|e] pr]; unfold pollJobStatus, pollCatch, portfolioCatch;
    cbn [status_reply portfolio_reply].
  - destruct (JobStatus_eqb (status d) completed && _).
    + destruct pr as [[|body]|e]; simpl; repeat split;
        destruct (_ || _); reflexivity.
    + destruct (JobStatus_eqb (status d) failed); simpl; repeat split.
  - destruct (status_is 404 e); simpl; repeat split.
Qed.

Lemma poll_stops_iff (jobId : jsstring) (d : JobStatusData) (pr : Reply Payload)
      (s : Editor) :
  snd (pollJobStatus jobId (mkPollOutcome (Resolved d) pr) s) = stopsPolling d pr.
Proof.
  unfold pollJobStatus, stopsPolling, portfolioCatch;
    cbn [status_reply portfolio_reply].
  destruct (status d); simpl; try reflexivity.
  destruct (truthy_opt (portfolio_id d)); simpl; [|reflexivity].
  destruct pr as [[|body]|e]; simpl; try reflexivity.
  destruct (_ || _); reflexivity.
Qed.

Lemma intervalTick_disarmed (jobId : jsstring) (o : PollOutcome) (s : Editor) :
  intervalId s = false -> intervalTick jobId o s = s.
Proof. intros H. unfold intervalTick. now rewrite H. Qed.

Lemma ticks_disarmed (jobId : jsstring) (os : list PollOutcome) (s : Editor) :
  intervalId s = false -> run jobId (map IntervalFired os) s = s.
Proof.
  intros H. unfold run. induction os as [|o os IH]; simpl; [reflexivity|].
  now rewrite intervalTick_disarmed.
Qed.

Lemma intervalTick_armed (jobId : jsstring) (o : PollOutcome) (s : Editor) :
  intervalId s = true ->
  intervalTick jobId o s =
  (if snd (pollJobStatus jobId o s)
   then clearInterval (fst (pollJobStatus jobId o s))
   else fst (pollJobStatus jobId o s)).
Proof.
  intros H. unfold intervalTick. rewrite H.
  now destruct (pollJobStatus jobId o s).
Qed.

(** While the effect is in place nothing disarms the deadline timer or
    refreshes the snapshot its callback reads. *)
Lemma deadline_stays_armed (jobId : jsstring) (es : list Event) (s : Editor) :
  forallb keepsEffect es = true ->
  timeoutId (run jobId es s) = timeoutId s /\
  capturedJobStatus (run jobId es s) = capturedJobStatus s.
Proof.
  unfold run. revert s. induction es as [|e es IH]; intros s H; [now split|].
  simpl in H. apply andb_true_iff in H as [He H].
  simpl. destruct (IH (step jobId s e) H) as [-> ->].
  destruct e as [o|o| |]; try discriminate He; simpl.
  - destruct (poll_keeps_timers jobId o s) as (_ & Ht & Hc). now split.
  - unfold intervalTick. destruct (intervalId s); [|now split].
    destruct (poll_keeps_timers jobId o s) as (_ & Ht & Hc).
    destruct (pollJobStatus jobId o s) as [s' [|]]; simpl in *; now split.
Qed.

(** On a page mounted with a job, a deadline that fires while the effect is
    in place always appends the timeout text, whatever was polled before. *)
Lemma deadline_always_reports (prompt file : option jsstring) (c : N) (j : jsstring)
      (es : list Event) :
  forallb keepsEffect es = true ->
  let s := run (c :: j) es (effect prompt file (Some (c :: j)) mounted) in
  messages (deadline s) = messages s ++ [mkMessage assistant timeoutText].
Proof.
  intros H s.
  destruct (deadline_stays_armed (c :: j) es
              (effect prompt file (Some (c :: j)) mounted) H) as [Ht Hc].
  fold s in Ht, Hc. unfold deadline. rewrite Ht, Hc.
  unfold effect. rewrite !orb_true_r. reflexivity.
Qed.

Import Scenarios.

(** C1, at the failing input.  On the page opened for job j1 the first poll
    reports the job queued and the next tick reports it failed (or
    completed, with the portfolio delivered): the interval timer is
    cleared but the deadline timer stays armed, and when it fires it
    appends the timeout text after the failure (completion) message. *)
Theorem timeout_reported_after_terminal_status :
  let s1 := run job1 [InitialPollSettled (answers queued noReply);
                      IntervalFired (answers broken noReply)] page in
  let s2 := run job1 [InitialPollSettled (answers queued noReply);
                      IntervalFired (answers done document)] page in
  (intervalId s1 = false /\ timeoutId s1 = true /\
   messages (deadline s1) =
     [mkMessage user (str "[Attached: cv.pdf]" ++ LF ++ str "[Job ID: j1]");
      mkMessage assistant (progressLine queued);
      mkMessage assistant (failureText broken);
      mkMessage assistant timeoutText]) /\
  (intervalId s2 = false /\ timeoutId s2 = true /\
   messages (deadline s2) =
     [mkMessage user (str "[Attached: cv.pdf]" ++ LF ++ str "[Job ID: j1]");
      mkMessage assistant (progressLine queued);
      mkMessage assistant completionText;
      mkMessage assistant timeoutText]).
Proof. vm_compute. repeat split. Qed.

(** C2, counterexample.  A tick whose snapshot reports completed while the
    portfolio request is answered 404 leaves the interval armed, and the
    next tick polls again and appends to the timeline; a tick whose
    snapshot reports cancelled leaves the interval armed too, and the next
    tick polls again and overwrites the job. *)
Lemma terminal_snapshot_keeps_polling :
  let s1 := intervalTick job1 (answers done (Rejected (httpError 404))) page in
  let s2 := intervalTick job1 (answers done document) s1 in
  let t1 := intervalTick job1 (answers withdrawn noReply) page in
  let t2 := intervalTick job1 (answers extracting noReply) t1 in
  intervalId page = true /\
  (isTerminal (status done) = true /\
   jobStatus s1 = Some done /\
   intervalId s1 = true /\
   requests s2 = requests s1 ++ [GetJob job1; GetPortfolio job1] /\
   messages s2 = messages s1 ++ [mkMessage assistant completionText]) /\
  (isTerminal (status withdrawn) = true /\
   jobStatus t1 = Some withdrawn /\
   intervalId t1 = true /\
   requests t2 = requests t1 ++ [GetJob job1] /\
   jobStatus t2 = Some extracting).
Proof. vm_compute. repeat split. Qed.

(** C3, at the failing input.  On the page opened for job j1 the first
    poll reports the job queued at 0% and replaces the acknowledgement by
    the progress line of that snapshot.  The next tick reports text
    extraction at 30%: the job snapshot is overwritten, but the last
    message, a progress line, does not contain "analyzing", so the guard
    of line 110 leaves the timeline as it is and the chat keeps showing
    the queued line.  None of the progress lines of the eight statuses
    contains "analyzing". *)
Theorem progress_update_not_replaced :
  let s1 := initialPoll job1 (answers queued noReply) page in
  let s2 := intervalTick job1 (answers extracting noReply) s1 in
  lastMsg (messages s1) = Some (mkMessage assistant (progressLine queued)) /\
  isTerminal (status extracting) = false /\
  jobStatus s2 = Some extracting /\
  messages s2 = messages s1 /\
  lastMsg (messages s2) <> Some (mkMessage assistant (progressLine extracting)) /\
  forallb (fun st =>
             negb (includes
                     (progressLine (mkJobStatusData job1 st 30 (Some (str "ocr"))
                                      (Some (mkJobError (str "boom"))) None None))
                     (str "analyzing")))
    [pending; processing; ocr_extracting; ai_generating; validating;
     completed; failed; cancelled] = true.
Proof. vm_compute. repeat split. discriminate. Qed.

(** What the update of lines 108-117 does on a poll that resolves with a
    non-terminal snapshot: a last message that is an assistant message
    containing "analyzing" is replaced in place by the progress line of
    the snapshot, and the acknowledgement written at mount is such a
    message; any other timeline is left unchanged.  No message is
    appended, and polling the same snapshot a second time changes neither
    the timeline nor the job. *)
Lemma progress_coalescing (jobId : jsstring) (d : JobStatusData)
        (pr : Reply Payload) (s : Editor) :
  isTerminal (status d) = false ->
  let o := mkPollOutcome (Resolved d) pr in
  let s' := fst (pollJobStatus jobId o s) in
  (forall pre m, messages s = pre ++ [m] ->
     role m = assistant -> includes (content m) (str "analyzing") = true ->
     messages s' = pre ++ [mkMessage assistant (progressLine d)]) /\
  (forall prompt file c j s0,
     messages (fst (pollJobStatus (c :: j) o (effect prompt file (Some (c :: j)) s0))) =
     [mkMessage user (userContent (or_else prompt []) file (Some (c :: j)));
      mkMessage assistant (progressLine d)]) /\
  (forall pre m, messages s = pre ++ [m] ->
     role m = user \/ includes (content m) (str "analyzing") = false ->
     messages s' = messages s) /\
  (messages s = [] -> messages s' = []) /\
  length (messages s') = length (messages s) /\
  jobStatus s' = Some d /\
  messages (fst (pollJobStatus jobId o s')) = messages s' /\
  jobStatus (fst (pollJobStatus jobId o s')) = jobStatus s'.
Proof.
  intros Ht o s'.
  assert (Hc : status d <> completed) by (intros E; rewrite E in Ht; discriminate).
  assert (Hf : status d <> failed) by (intros E; rewrite E in Ht; discriminate).
  assert (P : forall i x, messages (fst (pollJobStatus i o x)) = coalesce d (messages x)
                          /\ jobStatus (fst (pollJobStatus i o x)) = Some d).
  { intros i x. unfold o. now rewrite (poll_continue i d pr x Hc Hf). }
  destruct (P jobId s) as [Hm Hj]. fold s' in Hm, Hj.
  repeat split.
  - intros pre m E Hr Hi. rewrite Hm, E. now apply coalesce_replace.
  - intros prompt file c j s0. rewrite (proj1 (P _ _)).
    unfold effect. rewrite !orb_true_r. cbn [messages setMessages setJobStatus
      setIsGenerating capture withInterval withTimeout].
    apply (coalesce_replace d [_]); [reflexivity|].
    apply acknowledgement_mentions_analyzing.
  - intros pre m E H. rewrite Hm, E. now apply coalesce_keep.
  - intros E. now rewrite Hm, E.
  - rewrite Hm. apply coalesce_length.
  - exact Hj.
  - rewrite (proj1 (P _ _)), Hm. apply coalesce_idempotent.
  - now rewrite (proj2 (P _ _)).
Qed.

(** What the [catch] of the portfolio request does when the backend
    answers 404, which axios turns into a rejection: the call appends
    nothing to the timeline, logs no error, keeps the generating flag and
    the stored portfolio and returns [false]; an armed interval stays
    armed, so the next tick asks again. *)
Lemma portfolio_404_is_not_fatal (jobId : jsstring) (d : JobStatusData)
      (body : Payload) (s : Editor) :
  status d = completed ->
  truthy_opt (portfolio_id d) = true ->
  let o := mkPollOutcome (Resolved d) (Http.axiosSettle (Http.HttpResponse 404 body)) in
  let (s', shouldStop) := pollJobStatus jobId o s in
  shouldStop = false /\
  messages s' = coalesce d (messages s) /\
  isGenerating s' = isGenerating s /\
  portfolioData s' = portfolioData s /\
  consoleErrors s' = consoleErrors s /\
  requests s' = requests s ++ [GetJob jobId; GetPortfolio jobId] /\
  (intervalId s = true -> intervalId (intervalTick jobId o s) = true).
Proof.
  intros Hc Hp o. subst o.
  assert (E : Http.axiosSettle (Http.HttpResponse 404 body) =
              Rejected (mkAxiosError (Some 404%N))) by reflexivity.
  rewrite E. clear E.
  assert (Htick : intervalId s = true ->
            intervalId (intervalTick jobId
              (mkPollOutcome (Resolved d) (Rejected (mkAxiosError (Some 404%N)))) s) = true).
  { intros Ha. rewrite (intervalTick_armed _ _ _ Ha).
    rewrite (poll_completed_caught jobId d _ s Hc Hp). exact Ha. }
  rewrite (poll_completed_caught jobId d _ s Hc Hp).
  cbn [portfolioCatch status_is response_status N.eqb Pos.eqb orb
       messages isGenerating portfolioData consoleErrors requests apiGet
       applySnapshot setMessages setJobStatus].
  repeat split.
  - now rewrite <- app_assoc.
  - exact Htick.
Qed.

(** C4, at the failing input.  The snapshot of job j1 reports completed
    with a portfolio id and the backend answers the portfolio request
    with status 202 and a body.  axios resolves a 202, so the call takes
    the body for the portfolio: it stores it, appends the completion
    message, clears the generating flag and returns [true], and the
    interval is cleared.  The test for 202 in the [catch] is never
    reached; it is reached for 404, where the attempt is inconclusive. *)
Theorem portfolio_202_taken_for_the_portfolio :
  let answer202 := Http.axiosSettle (Http.HttpResponse 202 (Document (str "{}"))) in
  let answer404 := Http.axiosSettle (Http.HttpResponse 404 (Document (str "{}"))) in
  let s1 := intervalTick job1 (answers done answer202) page in
  let s2 := intervalTick job1 (answers done answer404) page in
  answer202 = Resolved (Document (str "{}")) /\
  snd (pollJobStatus job1 (answers done answer202) page) = true /\
  messages s1 =
    [mkMessage user (str "[Attached: cv.pdf]" ++ LF ++ str "[Job ID: j1]");
     mkMessage assistant (progressLine done);
     mkMessage assistant completionText] /\
  portfolioData s1 = Some (Document (str "{}")) /\
  isGenerating s1 = false /\
  intervalId s1 = false /\
  (snd (pollJobStatus job1 (answers done answer404) page) = false /\
   messages s2 =
     [mkMessage user (str "[Attached: cv.pdf]" ++ LF ++ str "[Job ID: j1]");
      mkMessage assistant (progressLine done)] /\
   portfolioData s2 = None /\
   isGenerating s2 = true /\
   intervalId s2 = true).
Proof. vm_compute. repeat split. Qed.

(** C5, at the failing input.  On the page opened for job j1 the first
    poll is rejected with status 404: the call appends the job-not-found
    text and returns [true], but the interval stays armed.  The next tick
    issues the request again: rejected again, it appends the text a second
    time before the interval is cleared; answered with a snapshot, it
    overwrites the job and polling goes on. *)
Theorem first_poll_404_keeps_polling :
  let s1 := initialPoll job1 jobMissing page in
  let s2 := intervalTick job1 jobMissing s1 in
  let t2 := intervalTick job1 (answers extracting noReply) s1 in
  snd (pollJobStatus job1 jobMissing page) = true /\
  messages s1 = messages page ++ [mkMessage assistant jobNotFoundText] /\
  intervalId s1 = true /\
  (requests s2 = [GetJob job1; GetJob job1] /\
   messages s2 = messages page ++ [mkMessage assistant jobNotFoundText;
                                   mkMessage assistant jobNotFoundText] /\
   intervalId s2 = false) /\
  (requests t2 = [GetJob job1; GetJob job1] /\
   jobStatus t2 = Some extracting /\
   intervalId t2 = true).
Proof. vm_compute. repeat split. Qed.

(** C7, at the failing input.  On the page opened for job j1 the first
    poll reports the job failed with message "boom": the call appends the
    failure text and returns [true], but the interval stays armed; the next
    tick polls again and appends the failure text a second time. *)
Theorem first_poll_failed_keeps_polling :
  let s1 := initialPoll job1 (answers broken noReply) page in
  let s2 := intervalTick job1 (answers broken noReply) s1 in
  snd (pollJobStatus job1 (answers broken noReply) page) = true /\
  lastMsg (messages s1) = Some (mkMessage assistant (failureText broken)) /\
  includes (failureText broken) (str "boom") = true /\
  intervalId s1 = true /\
  requests s2 = [GetJob job1; GetJob job1] /\
  messages s2 = messages s1 ++ [mkMessage assistant (failureText broken)] /\
  intervalId s2 = false.
Proof. vm_compute. repeat split. Qed.

(** What the failed branch does on every call, first poll or tick: one
    failure message, holding the reported error message verbatim, is
    appended after the snapshot update, the generating flag is cleared, the
    portfolio is not requested and the call returns [true]. *)
Lemma failed_snapshot_reported (jobId : jsstring) (d : JobStatusData) (err : JobError)
      (pr : Reply Payload) (s : Editor) :
  status d = failed -> error d = Some err ->
  let (s', shouldStop) := pollJobStatus jobId (mkPollOutcome (Resolved d) pr) s in
  shouldStop = true /\
  messages s' = coalesce d (messages s) ++ [mkMessage assistant (failureText d)] /\
  includes (failureText d) (message err) = true /\
  isGenerating s' = false /\
  requests s' = requests s ++ [GetJob jobId].
Proof.
  intros Hf He.
  assert (Hi : includes (failureText d) (message err) = true).
  { unfold failureText, errorMessageOr. rewrite He. cbn [option_map].
    destruct (message err) as [|c m]; [apply includes_nil|].
    cbn [or_else]. do 5 apply includes_app_r.
    exact (includes_infix [] (c :: m) _). }
  rewrite (poll_failed jobId d pr s Hf).
  unfold say, applySnapshot, setMessages, setIsGenerating, setJobStatus, apiGet;
    cbn [messages isGenerating requests].
  repeat split. exact Hi.
Qed.

(** What the outer [catch] does on every call: status 404 appends the
    job-not-found text, clears the generating flag and returns [true];
    any other rejection changes neither timeline nor flag and returns
    [false]. *)
Lemma status_error_handling (jobId : jsstring) (e : AxiosError) (pr : Reply Payload)
      (s : Editor) :
  let (s', shouldStop) := pollJobStatus jobId (mkPollOutcome (Rejected e) pr) s in
  if status_is 404 e
  then shouldStop = true /\ isGenerating s' = false /\
       messages s' = messages s ++ [mkMessage assistant jobNotFoundText]
  else shouldStop = false /\ isGenerating s' = isGenerating s /\
       messages s' = messages s /\ intervalId s' = intervalId s.
Proof.
  rewrite poll_rejected. unfold pollCatch.
  destruct (status_is 404 e); simpl; repeat split.
Qed.

(** C10.  A call of [pollJobStatus] requests the job status and, besides
    that, at most the portfolio, the latter only when the snapshot reports
    completed and carries a non-empty portfolio id.  When the snapshot
    reports completed without a portfolio id the portfolio is not
    requested, nothing is appended to the timeline, the generating flag
    and the stored portfolio are kept, the call returns [false] and an
    armed interval stays armed. *)
Theorem portfolio_requested_only_when_named (jobId : jsstring) (o : PollOutcome)
        (s : Editor) :
  let (s', shouldStop) := pollJobStatus jobId o s in
  (requests s' = requests s ++ [GetJob jobId] \/
   requests s' = requests s ++ [GetJob jobId; GetPortfolio jobId] /\
   exists d c id, status_reply o = Resolved d /\ status d = completed /\
                  portfolio_id d = Some (c :: id)) /\
  (forall d, status_reply o = Resolved d ->
     status d = completed -> portfolio_id d = None ->
     requests s' = requests s ++ [GetJob jobId] /\
     messages s' = coalesce d (messages s) /\
     length (messages s') = length (messages s) /\
     isGenerating s' = isGenerating s /\
     portfolioData s' = portfolioData s /\
     shouldStop = false /\
     (intervalId s = true -> intervalId (intervalTick jobId o s) = true)).
Proof.
  destruct o as [[d|e] pr].
  - destruct (pollJobStatus jobId (mkPollOutcome (Resolved d) pr) s)
      as [s' b] eqn:E.
    split.
    + revert E. unfold pollJobStatus, portfolioCatch; cbn [status_reply portfolio_reply].
      destruct (status d) eqn:Hs; cbn [JobStatus_eqb andb];
        try (intros E; injection E as <- <-; left; reflexivity).
      destruct (portfolio_id d) as [[|c id]|] eqn:Hp; cbn [truthy_opt truthy];
        try (intros E; injection E as <- <-; left; reflexivity).
      intros E. right. split.
      * destruct pr as [[|body]|e]; [| |destruct (_ || _)];
          injection E as <- <-; simpl; now rewrite <- app_assoc.
      * now exists d, c, id.
    + intros d' Hd Hc Hp. cbn [status_reply] in Hd. injection Hd as <-.
      assert (Hu : truthy_opt (portfolio_id d) = false) by now rewrite Hp.
      assert (Htick : intervalId s = true ->
                intervalId (intervalTick jobId (mkPollOutcome (Resolved d) pr) s) = true).
      { intros Ha. rewrite (intervalTick_armed _ _ _ Ha).
        rewrite (poll_completed_unnamed jobId d pr s Hc Hu). exact Ha. }
      rewrite (poll_completed_unnamed jobId d pr s Hc Hu) in E.
      injection E as <- <-. simpl. repeat split; [apply coalesce_length | exact Htick].
  - rewrite poll_rejected. unfold pollCatch.
    destruct (status_is 404 e); (split; [left; reflexivity | intros d H; discriminate H]).
Qed.

(** Witness of C10: job j1 reported completed without a portfolio id. *)
Lemma portfolio_requested_only_when_named_witness :
  status doneUnnamed = completed /\
  portfolio_id doneUnnamed = None /\
  requests (fst (pollJobStatus job1 (answers doneUnnamed document) page)) = [GetJob job1] /\
  snd (pollJobStatus job1 (answers doneUnnamed document) page) = false.
Proof.
  split; [reflexivity|split; [reflexivity|]].
  pose proof (portfolio_requested_only_when_named job1
                (answers doneUnnamed document) page) as H.
  destruct (pollJobStatus job1 (answers doneUnnamed document) page) as [s' b].
  destruct (proj2 H doneUnnamed eq_refl eq_refl eq_refl) as (Hr & _ & _ & _ & _ & Hb & _).
  exact (conj Hr Hb).
Defined.

End PollingProps.

(** ** Both variants *)

(** C9.  In both variants a send whose text is empty or made of whitespace
    only returns with the whole state unchanged: no message is appended,
    the generating flag is not set, the streaming variant opens no socket
    and the polling variant arms no reply timer. *)
Theorem blank_send_changes_nothing (text : jsstring) :
  forallb isWhiteSpace text = true ->
  (forall override c,
     Streaming.submittedText override c = text ->
     Streaming.handleSend override c = (c, None)) /\
  (forall s, Polling.input s = text -> Polling.handleSend s = s).
Proof.
  intros H. pose proof (trim_blank text H) as Ht. split.
  - intros override c E. unfold Streaming.handleSend. now rewrite E, Ht.
  - intros s E. unfold Polling.handleSend. now rewrite E, Ht.
Qed.

(** Witness of C9: two spaces typed into the input of each variant. *)
Lemma blank_send_changes_nothing_witness :
  forallb isWhiteSpace (str "  ") = true /\
  Streaming.handleSend None (Streaming.mkChat [] (str "  ") false 0) =
    (Streaming.mkChat [] (str "  ") false 0, None) /\
  Polling.handleSend (Polling.setInput (str "  ") Scenarios.page) =
    Polling.setInput (str "  ") Scenarios.page.
Proof.
  split; [reflexivity|].
  pose proof (blank_send_changes_nothing (str "  ") eq_refl) as [Hs Hp].
  split.
  - exact (Hs None (Streaming.mkChat [] (str "  ") false 0) eq_refl).
  - exact (Hp (Polling.setInput (str "  ") Scenarios.page) eq_refl).
Defined.

(** ** Status poller: further properties *)

Module PollingMore.
Import Polling PollingProps.

Lemma userMessages_app (a b : list Message) :
  userMessages (a ++ b) = userMessages a ++ userMessages b.
Proof. apply filter_app. Qed.

Lemma coalesce_userMessages (d : JobStatusData) (prev : list Message) :
  userMessages (coalesce d prev) = userMessages prev.
Proof.
  destruct (snoc_cases prev) as [-> | (pre & m & ->)]; [reflexivity|].
  unfold coalesce. rewrite lastMsg_snoc.
  destruct (Role_eqb (role m) assistant) eqn:Hr; [|reflexivity].
  destruct (includes _ _); [|reflexivity].
  cbn [andb]. rewrite slice_snoc, !userMessages_app. f_equal.
  unfold userMessages; simpl. destruct (role m); [discriminate|reflexivity].
Qed.

(** The timeline after a call: the old one, possibly with its last message
    rewritten by [coalesce], followed by at most one assistant message. *)
Lemma poll_messages (jobId : jsstring) (o : PollOutcome) (s : Editor) :
  exists base extra,
    messages (fst (pollJobStatus jobId o s)) = base ++ extra /\
    (base = messages s \/ exists d, base = coalesce d (messages s)) /\
    (extra = [] \/ exists text, extra = [mkMessage assistant text]).
Proof.
  destruct o as [[d|e] pr]; unfold pollJobStatus, pollCatch, portfolioCatch;
    cbn [status_reply portfolio_reply].
  - destruct (JobStatus_eqb (status d) completed && _).
    + destruct pr as [[|body]|e].
      * destruct (_ || _); exists (coalesce d (messages s)), [];
          (split; [now rewrite app_nil_r | split; [right; now exists d | now left]]).
      * exists (coalesce d (messages s)), [mkMessage assistant completionText].
        split; [reflexivity | split; [right; now exists d | right; now eexists]].
      * destruct (_ || _); exists (coalesce d (messages s)), [];
          (split; [now rewrite app_nil_r | split; [right; now exists d | now left]]).
    + destruct (JobStatus_eqb (status d) failed).
      * exists (coalesce d (messages s)), [mkMessage assistant (failureText d)].
        split; [reflexivity | split; [right; now exists d | right; now eexists]].
      * exists (coalesce d (messages s)), [].
        split; [now rewrite app_nil_r | split; [right; now exists d | now left]].
  - destruct (status_is 404 e).
    + exists (messages s), [mkMessage assistant jobNotFoundText].
      split; [reflexivity | split; [now left | right; now eexists]].
    + exists (messages s), [].
      split; [now rewrite app_nil_r | split; [now left | now left]].
Qed.

Lemma step_messages (jobId : jsstring) (s : Editor) (e : Event) :
  exists base extra,
    messages (step jobId s e) = base ++ extra /\
    (base = messages s \/ exists d, base = coalesce d (messages s)) /\
    (extra = [] \/ exists text, extra = [mkMessage assistant text]).
Proof.
  destruct e as [o|o| |]; cbn [step].
  - apply poll_messages.
  - unfold intervalTick. destruct (intervalId s).
    + destruct (poll_messages jobId o s) as (base & extra & H).
      destruct (pollJobStatus jobId o s) as [s' [|]]; now exists base, extra.
    + exists (messages s), []. rewrite app_nil_r. intuition.
  - unfold deadline. destruct (timeoutId s).
    + destruct (notFinished _).
      * exists (messages s), [mkMessage assistant timeoutText].
        split; [reflexivity | split; [now left | right; now eexists]].
      * exists (messages s), []. rewrite app_nil_r. intuition.
    + exists (messages s), []. rewrite app_nil_r. intuition.
  - exists (messages s), []. rewrite app_nil_r. intuition.
Qed.

(** X1.  No poll, tick, deadline or cleanup removes or alters a user
    message: the user's turns of the timeline are the same before and
    after any sequence of these events.  The reply timer keeps them too,
    and [handleSend] adds exactly the typed text when it is not blank. *)
Theorem polling_keeps_user_messages (jobId : jsstring) (es : list Event) (s : Editor) :
  userMessages (messages (run jobId es s)) = userMessages (messages s) /\
  userMessages (messages (replyTimerFired s)) = userMessages (messages s) /\
  userMessages (messages (handleSend s)) =
    userMessages (messages s) ++
    (if truthy (trim (input s)) then [mkMessage user (input s)] else []).
Proof.
  split; [|split].
  - unfold run. revert s. induction es as [|e es IH]; intros s; [reflexivity|].
    simpl. rewrite IH.
    destruct (step_messages jobId s e) as (base & extra & -> & Hb & He).
    rewrite userMessages_app.
    assert (E : userMessages extra = []) by (destruct He as [-> | (t & ->)]; reflexivity).
    rewrite E, app_nil_r.
    destruct Hb as [-> | (d & ->)]; [reflexivity | apply coalesce_userMessages].
  - unfold replyTimerFired. destruct (replyTimers s); [reflexivity|].
    cbn [messages setIsGenerating say setMessages withReplyTimers].
    rewrite userMessages_app. apply app_nil_r.
  - unfold handleSend. destruct (truthy (trim (input s))); cbn [negb].
    + cbn [messages withReplyTimers setIsGenerating setInput setMessages].
      now rewrite userMessages_app.
    + now rewrite app_nil_r.
Qed.

(** X2.  The timeline never gets shorter and grows by at most one message
    per event. *)
Theorem polling_timeline_growth (jobId : jsstring) (es : list Event) (s : Editor) :
  length (messages s) <= length (messages (run jobId es s)) <=
  length (messages s) + length es.
Proof.
  unfold run. revert s. induction es as [|e es IH]; intros s; [simpl; lia|].
  simpl. specialize (IH (step jobId s e)).
  destruct (step_messages jobId s e) as (base & extra & E & Hb & He).
  rewrite E in IH. rewrite length_app in IH.
  assert (Lb : length base = length (messages s))
    by (destruct Hb as [-> | (d & ->)]; [reflexivity | apply coalesce_length]).
  assert (Le : length extra <= 1) by (destruct He as [-> | (t & ->)]; simpl; lia).
  lia.
Qed.

(** A timer event: an interval tick, the deadline or the cleanup. *)
Lemma quiet_step (jobId : jsstring) (s : Editor) (e : Event) :
  intervalId s = false -> timeoutId s = false ->
  isTimerEvent e = true ->
  step jobId s e = s.
Proof.
  intros Hi Ht He. destruct e as [o|o| |]; [discriminate He| | |]; cbn [step].
  - now apply intervalTick_disarmed.
  - unfold deadline. now rewrite Ht.
  - destruct s; simpl in *. now subst.
Qed.

Lemma quiet_run (jobId : jsstring) (es : list Event) (s : Editor) :
  intervalId s = false -> timeoutId s = false ->
  forallb isTimerEvent es = true ->
  run jobId es s = s.
Proof.
  intros Hi Ht H. unfold run. induction es as [|e es IH]; [reflexivity|].
  simpl in H. apply andb_true_iff in H as [He H].
  simpl. rewrite (quiet_step jobId s e Hi Ht He). now apply IH.
Qed.

Lemma poll_commutes_with_cleanup (jobId : jsstring) (o : PollOutcome) (s : Editor) :
  fst (pollJobStatus jobId o (cleanup s)) = cleanup (fst (pollJobStatus jobId o s)).
Proof.
  destruct o as [[d|e] pr]; unfold pollJobStatus, pollCatch, portfolioCatch;
    cbn [status_reply portfolio_reply].
  - destruct (JobStatus_eqb (status d) completed && _).
    + destruct pr as [[|body]|e]; try reflexivity; destruct (_ || _); reflexivity.
    + destruct (JobStatus_eqb (status d) failed); reflexivity.
  - destruct (status_is 404 e); reflexivity.
Qed.

(** X3.  After the cleanup, and after the deadline has fired, both timers
    are off: no later interval tick, deadline or cleanup changes anything.
    The first poll is not cancelled by the cleanup: if it settles
    afterwards, its state updates are the ones it would have made before
    (they reach the component when it is still mounted, the cleanup having
    run because the search parameters changed). *)
Theorem timers_silent_after_teardown (jobId : jsstring) (es : list Event)
        (o : PollOutcome) (s : Editor) :
  forallb isTimerEvent es = true ->
  run jobId es (cleanup s) = cleanup s /\
  (timeoutId s = true -> run jobId es (deadline s) = deadline s) /\
  initialPoll jobId o (cleanup s) = cleanup (initialPoll jobId o s).
Proof.
  intros H. split; [|split].
  - now apply quiet_run.
  - intros Ht. apply quiet_run; try assumption;
      unfold deadline; rewrite Ht; now destruct (notFinished _).
  - apply poll_commutes_with_cleanup.
Qed.

Lemma timers_silent_after_teardown_witness :
  run Scenarios.job1
    [IntervalFired (Scenarios.answers Scenarios.done Scenarios.document); DeadlineFired]
    (deadline Scenarios.page) = deadline Scenarios.page.
Proof.
  exact (proj1 (proj2 (timers_silent_after_teardown Scenarios.job1
           [IntervalFired (Scenarios.answers Scenarios.done Scenarios.document);
            DeadlineFired]
           Scenarios.jobMissing Scenarios.page eq_refl)) eq_refl).
Defined.

Lemma poll_keeps_flag_down (jobId : jsstring) (o : PollOutcome) (s : Editor) :
  isGenerating s = false -> isGenerating (fst (pollJobStatus jobId o s)) = false.
Proof.
  intros H.
  destruct o as [[d|e] pr]; unfold pollJobStatus, pollCatch, portfolioCatch;
    cbn [status_reply portfolio_reply].
  - destruct (JobStatus_eqb (status d) completed && _).
    + destruct pr as [[|body]|e];
        [destruct (_ || _); exact H | reflexivity | destruct (_ || _); exact H].
    + destruct (JobStatus_eqb (status d) failed); [reflexivity | exact H].
  - destruct (status_is 404 e); [reflexivity | exact H].
Qed.

(** X4.  Polls and timers only ever clear the generating flag: once it is
    off, no sequence of polls, ticks, deadline and cleanup turns it on
    again, and the reply timer leaves it off as well. *)
Theorem generating_flag_never_raised (jobId : jsstring) (es : list Event) (s : Editor) :
  isGenerating s = false ->
  isGenerating (run jobId es s) = false /\
  isGenerating (replyTimerFired (run jobId es s)) = false.
Proof.
  intros H.
  assert (R : isGenerating (run jobId es s) = false).
  { unfold run. revert s H. induction es as [|e es IH]; intros s H; [exact H|].
    simpl. apply IH. destruct e as [o|o| |]; cbn [step].
    - now apply poll_keeps_flag_down.
    - unfold intervalTick. destruct (intervalId s); [|exact H].
      pose proof (poll_keeps_flag_down jobId o s H) as P.
      destruct (pollJobStatus jobId o s) as [s' [|]]; exact P.
    - unfold deadline. destruct (timeoutId s); [|exact H].
      destruct (notFinished _); [reflexivity | exact H].
    - exact H. }
  split; [exact R|].
  unfold replyTimerFired. destruct (replyTimers _); [exact R | reflexivity].
Qed.

Lemma generating_flag_never_raised_witness :
  isGenerating (run Scenarios.job1
                  [IntervalFired (Scenarios.answers Scenarios.extracting Scenarios.noReply)]
                  (deadline Scenarios.page)) = false.
Proof.
  exact (proj1 (generating_flag_never_raised Scenarios.job1
           [IntervalFired (Scenarios.answers Scenarios.extracting Scenarios.noReply)]
           (deadline Scenarios.page) eq_refl)).
Defined.

(** X5.  The effect does nothing when prompt, file name and job id are
    all missing or empty.  Otherwise it discards the timeline it finds and
    starts a new one of exactly two messages, a user turn and an assistant
    turn, with the generating flag set.  With a job id the assistant turn
    mentions "analyzing", the job starts as pending and both timers are
    armed, the deadline closure capturing the previous job snapshot;
    without one no poller is armed and one idle timer is started. *)
Theorem effect_starts_over (prompt file jobId : option jsstring) (s : Editor) :
  let s' := effect prompt file jobId s in
  (truthy (or_else prompt []) || truthy_opt file || truthy_opt jobId = false -> s' = s) /\
  (truthy (or_else prompt []) || truthy_opt file || truthy_opt jobId = true ->
   isGenerating s' = true /\
   messages s' =
     [mkMessage user (userContent (or_else prompt []) file jobId);
      mkMessage assistant
        match jobId with
        | Some (c :: j) => receivedResumeText file (c :: j)
        | _ => willHelpText (or_else prompt [])
        end] /\
   (forall c j, jobId = Some (c :: j) ->
      includes (receivedResumeText file (c :: j)) (str "analyzing") = true /\
      jobStatus s' = Some (pendingJob (c :: j)) /\
      intervalId s' = true /\ timeoutId s' = true /\
      capturedJobStatus s' = jobStatus s) /\
   (truthy_opt jobId = false ->
      jobStatus s' = jobStatus s /\
      intervalId s' = intervalId s /\ timeoutId s' = timeoutId s /\
      idleTimers s' = S (idleTimers s))).
Proof.
  intros s'. subst s'. unfold effect. split; intros H; rewrite H; [reflexivity|].
  destruct jobId as [[|c j]|].
  - split; [reflexivity|]. split; [reflexivity|].
    split; [intros ? ? [=] | intros _; repeat split].
  - split; [reflexivity|]. split; [reflexivity|].
    split; [|discriminate].
    intros c' j' [= <- <-]. split; [apply acknowledgement_mentions_analyzing|].
    repeat split.
  - split; [reflexivity|]. split; [reflexivity|].
    split; [intros ? ? [=] | intros _; repeat split].
Qed.

Lemma effect_starts_over_witness :
  messages (effect None (Some (str "cv.pdf")) (Some (str "j1"))
              (say (str "old") mounted)) =
  [mkMessage user (str "[Attached: cv.pdf]" ++ LF ++ str "[Job ID: j1]");
   mkMessage assistant (receivedResumeText (Some (str "cv.pdf")) (str "j1"))] /\
  effect None None (Some []) (say (str "old") mounted) = say (str "old") mounted.
Proof.
  split.
  - exact (proj1 (proj2 (proj2 (effect_starts_over None (Some (str "cv.pdf"))
                                  (Some (str "j1")) (say (str "old") mounted)) eq_refl))).
  - exact (proj1 (effect_starts_over None None (Some []) (say (str "old") mounted))
             eq_refl).
Defined.

(** X6.  A send with non-blank input followed by its reply timer appends
    the typed text as a user message and the canned reply as an assistant
    message, empties the input box and clears the generating flag, also
    while the job poller is still armed: the two timers of the effect and
    the job snapshot are untouched. *)
Theorem send_then_reply (s : Editor) :
  truthy (trim (input s)) = true ->
  let s' := replyTimerFired (handleSend s) in
  messages s' = messages s ++ [mkMessage user (input s);
                               mkMessage assistant changesMadeText] /\
  input s' = [] /\
  isGenerating (handleSend s) = true /\
  isGenerating s' = false /\
  intervalId s' = intervalId s /\ timeoutId s' = timeoutId s /\
  jobStatus s' = jobStatus s /\
  replyTimers s' = replyTimers s.
Proof.
  intros H s'. subst s'. unfold handleSend. rewrite H. cbn [negb].
  unfold replyTimerFired.
  cbn [replyTimers withReplyTimers setIsGenerating setInput setMessages say
       messages input isGenerating intervalId timeoutId jobStatus].
  rewrite <- app_assoc. repeat split.
Qed.

Lemma send_then_reply_witness :
  messages (replyTimerFired (handleSend (setInput (str "make it blue") Scenarios.page))) =
  messages Scenarios.page ++ [mkMessage user (str "make it blue");
                              mkMessage assistant changesMadeText] /\
  isGenerating (replyTimerFired (handleSend (setInput (str "make it blue") Scenarios.page)))
  = false /\
  intervalId (replyTimerFired (handleSend (setInput (str "make it blue") Scenarios.page)))
  = true.
Proof.
  pose proof (send_then_reply (setInput (str "make it blue") Scenarios.page) eq_refl)
    as (Hm & _ & _ & Hg & Hi & _).
  exact (conj Hm (conj Hg Hi)).
Defined.

(** X7.  The send button is disabled exactly when [handleSend] would leave
    the state as it is. *)
Theorem send_button_matches_handleSend (s : Editor) :
  PollingView.sendDisabled s = true <-> handleSend s = s.
Proof.
  unfold PollingView.sendDisabled, handleSend.
  destruct (truthy (trim (input s))); cbn [negb]; split; try easy.
  intros E. apply (f_equal (fun x => length (messages x))) in E.
  cbn [messages withReplyTimers setIsGenerating setInput setMessages] in E.
  rewrite length_app in E. simpl in E. lia.
Qed.

Lemma send_button_matches_handleSend_witness :
  handleSend (setInput (str "   ") Scenarios.page) = setInput (str "   ") Scenarios.page.
Proof.
  exact (proj1 (send_button_matches_handleSend (setInput (str "   ") Scenarios.page))
           eq_refl).
Defined.

(** X8.  The preview never shows the failure panel: whenever there is no
    portfolio and the job is not completed, a failed job included, the
    spinner panel is chosen before the failure test is reached. *)
Theorem failed_panel_unreachable (portfolioTruthy : bool) (j : option JobStatusData) :
  PollingView.previewPanel portfolioTruthy j <> PollingView.FailedPanel /\
  (forall d, j = Some d -> status d = failed ->
     PollingView.previewPanel false j = PollingView.SpinnerPanel).
Proof.
  unfold PollingView.previewPanel. split.
  - destruct portfolioTruthy; [discriminate|].
    destruct j as [d|]; [|discriminate].
    destruct (status d); discriminate.
  - intros d -> Hd. now rewrite Hd.
Qed.

Lemma failed_panel_unreachable_witness :
  PollingView.previewPanel false (Some Scenarios.broken) = PollingView.SpinnerPanel.
Proof.
  exact (proj2 (failed_panel_unreachable false (Some Scenarios.broken))
           Scenarios.broken eq_refl eq_refl).
Defined.

(** X9.  The status alert has exactly one icon and one title for every
    status except cancelled; for a cancelled job it shows neither, and
    still shows the progress bar. *)
Theorem cancelled_alert_is_untitled (st : JobStatus) :
  (st = cancelled ->
     PollingView.alertTitle st = [] /\ PollingView.alertIcons st = [] /\
     PollingView.showsProgress st = true) /\
  (st <> cancelled ->
     length (PollingView.alertTitle st) = 1 /\ length (PollingView.alertIcons st) = 1) /\
  (PollingView.showsProgress st = false <-> st = completed \/ st = failed).
Proof.
  split; [|split].
  - intros ->. repeat split.
  - intros H. destruct st; try (split; reflexivity). congruence.
  - destruct st; cbn; split; intros H; try discriminate; auto;
      destruct H as [H|H]; discriminate H.
Qed.

Lemma cancelled_alert_is_untitled_witness :
  PollingView.alertTitle cancelled = [] /\
  PollingView.alertTitle pending = [str "Queued"].
Proof.
  split.
  - exact (proj1 (proj1 (cancelled_alert_is_untitled cancelled) eq_refl)).
  - reflexivity.
Defined.

(** X10.  The stage label replaces the first underscore only: everything
    after it, further underscores included, is shown as it came; a label
    without underscore is shown unchanged, and the length never changes. *)
Theorem stage_label_first_underscore (a b : jsstring) :
  forallb (fun c => negb (N.eqb c 95)) a = true ->
  PollingView.replaceUnderscore (a ++ 95%N :: b) = a ++ 32%N :: b /\
  PollingView.replaceUnderscore a = a /\
  length (PollingView.replaceUnderscore (a ++ 95%N :: b)) = length (a ++ 95%N :: b).
Proof.
  intros H.
  assert (E1 : PollingView.replaceUnderscore (a ++ 95%N :: b) = a ++ 32%N :: b).
  { induction a as [|c a IH]; [reflexivity|].
    simpl in H. apply andb_true_iff in H as [Hc H].
    apply negb_true_iff in Hc. simpl. rewrite Hc. now rewrite IH. }
  split; [exact E1|split].
  - induction a as [|c a IH]; [reflexivity|].
    simpl in H. apply andb_true_iff in H as [Hc H].
    apply negb_true_iff in Hc. simpl. rewrite Hc. f_equal. apply IH; [exact H|].
    clear -H. induction a as [|c a IH]; [reflexivity|].
    simpl in H. apply andb_true_iff in H as [Hc H].
    apply negb_true_iff in Hc. simpl. rewrite Hc. now rewrite IH.
  - rewrite E1, !length_app. reflexivity.
Qed.

Lemma stage_label_first_underscore_witness :
  PollingView.replaceUnderscore (str "ai_content_generation") =
  str "ai content_generation".
Proof.
  exact (proj1 (stage_label_first_underscore (str "ai") (str "content_generation")
                  eq_refl)).
Defined.

End PollingMore.

(** ** Streaming session: further properties *)

Module StreamingMore.
Import Streaming StreamingProps.

Lemma showAccumulated_shape (acc : jsstring) (prev : list Message) :
  userMessages (showAccumulated acc prev) = userMessages prev /\
  length prev <= length (showAccumulated acc prev) <= S (length prev).
Proof.
  destruct (snoc_cases prev) as [-> | (pre & m & ->)]; [simpl; split; [reflexivity|lia]|].
  destruct (role m) eqn:Hr.
  - rewrite showAccumulated_append by (now rewrite lastIsAssistant_snoc, Hr).
    unfold userMessages. rewrite !filter_app, !length_app. simpl.
    rewrite app_nil_r. split; [reflexivity|lia].
  - rewrite showAccumulated_replace by exact Hr.
    unfold userMessages. rewrite !filter_app, !length_app. simpl. rewrite Hr. simpl.
    split; [reflexivity|lia].
Qed.

Lemma dispatch_shape (w : Chat * Session) (e : SocketEvent) :
  userMessages (messages (fst (dispatch w e))) = userMessages (messages (fst w)) /\
  length (messages (fst w)) <= length (messages (fst (dispatch w e)))
    <= S (length (messages (fst w))).
Proof.
  destruct w as [c k], e as [|data|]; cbn [dispatch onopen onerror fst].
  - split; [reflexivity|lia].
  - unfold onmessage. destruct (strict_eq data END_OF_STREAM); cbn [fst].
    + split; [reflexivity|simpl; lia].
    + apply showAccumulated_shape.
  - cbn [messages setMessages setIsGenerating].
    unfold userMessages. rewrite filter_app, length_app. simpl.
    rewrite app_nil_r. split; [reflexivity|lia].
Qed.

(** X11.  Whatever a socket reports, in whatever order, the user's turns
    of the timeline stay as they are; the timeline never gets shorter and
    grows by at most one message per event. *)
Theorem streaming_keeps_user_messages (es : list SocketEvent) (w : Chat * Session) :
  userMessages (messages (fst (deliver es w))) = userMessages (messages (fst w)) /\
  length (messages (fst w)) <= length (messages (fst (deliver es w)))
    <= length (messages (fst w)) + length es.
Proof.
  unfold deliver. revert w. induction es as [|e es IH]; intros w.
  - simpl. split; [reflexivity|lia].
  - simpl. destruct (IH (dispatch w e)) as [-> Hl].
    destruct (dispatch_shape w e) as [-> Hd]. split; [reflexivity|lia].
Qed.

(** X12.  The end-of-stream sentinel never reaches the accumulator: after
    any frames the accumulator holds what it held before followed by the
    frames other than the sentinel, in order; the socket is closed exactly
    if it was closed before or a sentinel was among the frames, and no
    frame makes the session send anything or open a connection. *)
Theorem sentinel_never_accumulated (fs : list jsstring) (c : Chat) (k : Session) :
  let w := receive fs (c, k) in
  accumulatedResponse (snd w) =
    accumulatedResponse k ++ concat (filter isFragment fs) /\
  closed (snd w) = closed k || existsb (fun f => negb (isFragment f)) fs /\
  outbox (snd w) = outbox k /\
  connections (fst w) = connections c.
Proof.
  unfold receive, deliver. revert c k.
  induction fs as [|f fs IH]; intros c k.
  - simpl. now rewrite app_nil_r, orb_false_r.
  - cbn [map fold_left dispatch filter existsb].
    destruct (isFragment f) eqn:Hf; cbn [negb].
    + rewrite (onmessage_fragment f c k Hf).
      destruct (IH (setMessages (showAccumulated (accumulatedResponse k ++ f)) c)
                  (mkSession (textToSend k) (accumulatedResponse k ++ f) (outbox k)
                     (closed k)))
        as (-> & -> & -> & ->).
      cbn. now rewrite <- app_assoc.
    + unfold isFragment in Hf. apply negb_false_iff in Hf.
      unfold onmessage. rewrite Hf.
      destruct (IH (setIsGenerating false c)
                  (mkSession (textToSend k) (accumulatedResponse k) (outbox k) true))
        as (-> & -> & -> & ->).
      cbn. now rewrite orb_true_r.
Qed.

(** X13.  A send whose text is not blank always opens exactly one socket,
    also while a generation is in progress and the send button is
    disabled: it appends the text, untrimmed, as a user message, sets the
    generating flag, empties the input box only if the text came from it
    and, once the socket opens, sends that text as its single frame.  A
    blank text does none of this. *)
Theorem send_opens_one_socket (override : option jsstring) (c : Chat) :
  let text := submittedText override c in
  (truthy (trim text) = false -> handleSend override c = (c, None)) /\
  (truthy (trim text) = true ->
   let c1 := mkChat (messages c ++ [mkMessage user text])
               (if truthy_opt override then input c else []) true
               (S (connections c)) in
   handleSend override c = (c1, Some (mkSession text [] [] false)) /\
   onopen (c1, mkSession text [] [] false) = (c1, mkSession text [] [text] false)) /\
  (isGenerating c = true -> StreamingView.sendDisabled c = true).
Proof.
  intros text. subst text. unfold handleSend. split; [|split].
  - intros H. now rewrite H.
  - intros H. rewrite H. cbn [negb]. split; [|reflexivity].
    destruct (truthy_opt override); reflexivity.
  - intros H. unfold StreamingView.sendDisabled. rewrite H. apply orb_true_r.
Qed.

Lemma send_opens_one_socket_witness :
  StreamingView.sendDisabled (mkChat [] (str "again") true 1) = true /\
  connections (fst (handleSend None (mkChat [] (str "again") true 1))) = 2.
Proof.
  split.
  - exact (proj2 (proj2 (send_opens_one_socket None (mkChat [] (str "again") true 1)))
             eq_refl).
  - rewrite (proj1 (proj1 (proj2 (send_opens_one_socket None
                                    (mkChat [] (str "again") true 1))) eq_refl)).
    reflexivity.
Defined.

End StreamingMore.

(** ** The earlier Editor: properties *)

Module LegacyProps.
Import Legacy.

Lemma ready_reply (r : PortfolioReply) (s : Editor) (n : nat) :
  pending s = S n -> ready r = true ->
  replyArrived r s =
  setIsGenerating false
    (setMessages (fun prev => prev ++ [mkMessage assistant analysisCompleteText])
       (clearInterval (withPending n s))).
Proof. intros Hp Hr. unfold replyArrived. now rewrite Hp, Hr. Qed.

(** With the interval cleared nothing starts a request; each request still
    awaited can append the completion message once. *)
Lemma cleared_stays (es : list Event) (s : Editor) :
  intervalId s = false ->
  intervalId (run es s) = false /\
  requests (run es s) = requests s /\
  countAssistant analysisCompleteText (messages (run es s)) + pending (run es s) <=
    countAssistant analysisCompleteText (messages s) + pending s /\
  (pending s = 0 ->
   messages (run es s) = messages s /\ isGenerating (run es s) = isGenerating s).
Proof.
  unfold run. revert s. induction es as [|e es IH]; intros s H.
  - simpl. split; [exact H|]. split; [reflexivity|]. split; [lia|]. now split.
  - simpl.
    assert (E : intervalId (step s e) = false /\
                requests (step s e) = requests s /\
                countAssistant analysisCompleteText (messages (step s e))
                  + pending (step s e) <=
                countAssistant analysisCompleteText (messages s) + pending s /\
                (pending s = 0 ->
                   messages (step s e) = messages s /\
                   isGenerating (step s e) = isGenerating s /\
                   pending (step s e) = 0)).
    { destruct e as [|r| |]; cbn [step].
      - unfold intervalFired. rewrite H.
        split; [exact H|]. split; [reflexivity|]. split; [lia|]. now repeat split.
      - unfold replyArrived. destruct (pending s) as [|n] eqn:Hp.
        + split; [exact H|]. split; [reflexivity|]. split; [lia|]. now repeat split.
        + destruct (ready r).
          * cbn [intervalId requests messages pending setIsGenerating setMessages
                 clearInterval withInterval withPending].
            split; [reflexivity|]. split; [reflexivity|]. split; [|discriminate].
            unfold countAssistant. rewrite filter_app, length_app. simpl. lia.
          * cbn [intervalId requests messages pending withPending].
            split; [exact H|]. split; [reflexivity|]. split; [lia|discriminate].
      - unfold stopTimerFired. destruct (stopTimer s).
        + cbn [intervalId requests messages pending isGenerating clearInterval
               withInterval withStopTimer].
          split; [reflexivity|]. split; [reflexivity|]. split; [lia|]. now repeat split.
        + split; [exact H|]. split; [reflexivity|]. split; [lia|]. now repeat split.
      - cbn [cleanup intervalId requests messages pending isGenerating clearInterval
             withInterval].
        split; [reflexivity|]. split; [reflexivity|]. split; [lia|]. now repeat split. }
    destruct E as (Ei & Er & Ec & E0).
    destruct (IH _ Ei) as (Hi & Hr & Hc & H0).
    split; [exact Hi|]. split; [now rewrite Hr|]. split; [lia|].
    intros Hp. destruct (E0 Hp) as (Em & Eg & Ep).
    destruct (H0 Ep) as [-> ->]. now split.
Qed.

(** X14.  An answer with status 200 and data appends the completion
    message, clears the generating flag and clears the interval.  Once
    the interval is cleared no request is made any more, so the message
    is appended again only for requests that were already awaited, at
    most once for each of them; with none awaited, neither the timeline
    nor the flag changes again. *)
Theorem legacy_completion_per_request (es : list Event) (s : Editor)
        (r : PortfolioReply) :
  (pending s <> 0 -> ready r = true ->
   let s' := replyArrived r s in
   messages s' = messages s ++ [mkMessage assistant analysisCompleteText] /\
   isGenerating s' = false /\ intervalId s' = false /\
   S (pending s') = pending s /\ requests s' = requests s) /\
  (intervalId s = false ->
   requests (run es s) = requests s /\
   intervalId (run es s) = false /\
   countAssistant analysisCompleteText (messages (run es s)) <=
     countAssistant analysisCompleteText (messages s) + pending s) /\
  (intervalId s = false -> pending s = 0 ->
   messages (run es s) = messages s /\ isGenerating (run es s) = isGenerating s).
Proof.
  split; [|split].
  - intros Hp Hr. destruct (pending s) as [|n] eqn:E; [contradiction|].
    cbv zeta. rewrite (ready_reply r s n E Hr). now repeat split.
  - intros H. destruct (cleared_stays es s H) as (Hi & Hr & Hc & _).
    repeat split; [exact Hr | exact Hi | lia].
  - intros H Hp. exact (proj2 (proj2 (proj2 (cleared_stays es s H))) Hp).
Qed.

Lemma legacy_completion_per_request_witness :
  let s := run [IntervalFired; IntervalFired] (effect None None (Some (str "j1")) mounted) in
  let s' := run [ReplyArrived (Answered 200 true); ReplyArrived (Answered 200 true);
                 IntervalFired] s in
  pending s = 2 /\
  countAssistant analysisCompleteText (messages s') <= 2 /\
  requests s' = 2.
Proof.
  split; [reflexivity|].
  pose proof (legacy_completion_per_request
                [ReplyArrived (Answered 200 true); IntervalFired]
                (replyArrived (Answered 200 true)
                   (run [IntervalFired; IntervalFired]
                      (effect None None (Some (str "j1")) mounted)))
                (Answered 200 true)) as (_ & H & _).
  destruct (H eq_refl) as (Hr & _ & Hc).
  split; [exact Hc | exact Hr].
Defined.






End LegacyProps.

(** ** String-keyed objects: lookup after update *)

Module DictFacts.

Lemma strict_eq_eq (a b : jsstring) : strict_eq a b = true -> a = b.
Proof.
  revert b. induction a as [|x a IH]; intros [|y b]; simpl; try easy.
  intros H. apply andb_true_iff in H as [H1 H2].
  apply N.eqb_eq in H1. subst. f_equal. now apply IH.
Qed.

Lemma get_set_same (k v : jsstring) (d : Dict.t) :
  Dict.get k (Dict.set k v d) = Some v.
Proof.
  induction d as [|[k0 v0] d IH]; simpl.
  - now rewrite strict_eq_refl.
  - destruct (strict_eq k k0) eqn:E; simpl.
    + now rewrite strict_eq_refl.
    + now rewrite E.
Qed.

Lemma get_set_other (k k' v : jsstring) (d : Dict.t) :
  strict_eq k' k = false ->
  Dict.get k' (Dict.set k v d) = Dict.get k' d.
Proof.
  intros H. induction d as [|[k0 v0] d IH]; simpl.
  - now rewrite H.
  - destruct (strict_eq k k0) eqn:E; simpl.
    + apply strict_eq_eq in E. subst k0. now rewrite H.
    + destruct (strict_eq k' k0); [reflexivity | exact IH].
Qed.

Lemma get_remove_same (k : jsstring) (d : Dict.t) :
  Dict.get k (Dict.remove k d) = None.
Proof.
  induction d as [|[k0 v0] d IH]; simpl; [reflexivity|].
  destruct (strict_eq k k0) eqn:E; simpl; [exact IH | now rewrite E].
Qed.

Lemma get_remove_other (k k' : jsstring) (d : Dict.t) :
  strict_eq k' k = false ->
  Dict.get k' (Dict.remove k d) = Dict.get k' d.
Proof.
  intros H. induction d as [|[k0 v0] d IH]; simpl; [reflexivity|].
  destruct (strict_eq k k0) eqn:E; simpl.
  - apply strict_eq_eq in E. subst k0. now rewrite H.
  - destruct (strict_eq k' k0); [reflexivity | exact IH].
Qed.

Lemma set_set (k v : jsstring) (d : Dict.t) :
  Dict.set k v (Dict.set k v d) = Dict.set k v d.
Proof.
  induction d as [|[k0 v0] d IH]; simpl.
  - now rewrite strict_eq_refl.
  - destruct (strict_eq k k0) eqn:E; simpl.
    + now rewrite strict_eq_refl.
    + now rewrite E, IH.
Qed.

End DictFacts.

(** ** Sign-in, sign-out, the route guard and the request interceptor *)

Module AuthProps.
Import Auth DictFacts.

(** X16.  After a Google sign-in that yields a non-empty id token, the
    route guard lets the editor render and the request interceptor puts
    "Bearer " followed by that token into the Authorization header of
    every request, overriding what was there and leaving the url and every
    other header alone.  A sign-in that fails stores nothing and does not
    navigate. *)
Theorem login_round_trip (c : N) (t : jsstring) (b : Browser) (config : Api.Config)
        (o : SignIn) :
  let b' := handleGoogleLogin (SignedIn (c :: t)) b in
  let config' := Api.requestInterceptor (localStorage b') config in
  ProtectedRoute b' = Children /\
  navigations b' = navigations b ++ [str "/"] /\
  Dict.get (str "Authorization") (Api.headers config') = Some (str "Bearer " ++ c :: t) /\
  Api.url config' = Api.url config /\
  (forall k, strict_eq k (str "Authorization") = false ->
     Dict.get k (Api.headers config') = Dict.get k (Api.headers config)) /\
  ((forall token, o <> SignedIn token) ->
     localStorage (handleGoogleLogin o b) = localStorage b /\
     navigations (handleGoogleLogin o b) = navigations b).
Proof.
  intros b' config'. subst b' config'.
  unfold Api.requestInterceptor, ProtectedRoute, handleGoogleLogin.
  cbn [localStorage navigate setItem navigations].
  rewrite get_set_same. cbn [truthy_opt truthy Api.headers Api.url].
  repeat split.
  - apply get_set_same.
  - intros k Hk. now apply get_set_other.
  - destruct o; try reflexivity. now destruct (H idToken).
  - destruct o; try reflexivity. now destruct (H idToken).
Qed.

Lemma login_round_trip_witness :
  Auth.ProtectedRoute
    (handleGoogleLogin (SignedIn (str "abc")) (mkBrowser [] [] 0)) = Children /\
  localStorage (handleGoogleLogin PopupRejected (mkBrowser [] [] 0)) = [].
Proof.
  pose proof (login_round_trip 97%N (str "bc") (mkBrowser [] [] 0)
                (Api.mkConfig (str "/jobs/j1") []) PopupRejected)
    as (H1 & _ & _ & _ & _ & H2).
  split; [exact H1|].
  exact (proj1 (H2 (fun token E => match E with end))).
Defined.

(** X17.  A logout whose sign-out succeeds removes the token and goes to
    /login: the route guard then redirects to /login and the interceptor
    leaves every request as it is, while the other keys of localStorage
    are kept.  The listener does the same to localStorage when Firebase
    reports no user.  A logout whose sign-out fails keeps the token and
    does not navigate. *)
Theorem logout_clears_token (b : Browser) (config : Api.Config)
        (u : option jsstring) :
  let b' := handleLogout true b in
  ProtectedRoute b' = NavigateTo (str "/login") /\
  navigations b' = navigations b ++ [str "/login"] /\
  Api.requestInterceptor (localStorage b') config = config /\
  (forall k, strict_eq k (str "token") = false ->
     Dict.get k (localStorage b') = Dict.get k (localStorage b)) /\
  localStorage (snd (authStateChanged None (u, b))) = localStorage b' /\
  localStorage (handleLogout false b) = localStorage b /\
  navigations (handleLogout false b) = navigations b.
Proof.
  intros b'. subst b'.
  unfold Api.requestInterceptor, ProtectedRoute, handleLogout.
  cbn [localStorage navigate removeItem navigations].
  rewrite get_remove_same. repeat split.
  intros k Hk. now apply get_remove_other.
Qed.

Lemma logout_clears_token_witness :
  Dict.get (str "auth_token")
    (localStorage (handleLogout true
                     (mkBrowser [(str "token", str "t"); (str "auth_token", str "g")] [] 0)))
  = Some (str "g") /\
  ProtectedRoute (handleLogout true
                    (mkBrowser [(str "token", str "t"); (str "auth_token", str "g")] [] 0))
  = NavigateTo (str "/login").
Proof.
  pose proof (logout_clears_token
                (mkBrowser [(str "token", str "t"); (str "auth_token", str "g")] [] 0)
                (Api.mkConfig [] []) None) as (H1 & _ & _ & H4 & _).
  split; [|exact H1].
  rewrite (H4 (str "auth_token") eq_refl). reflexivity.
Defined.

(** X18.  The request interceptor is idempotent, and when localStorage has
    no token, or an empty one, it returns the request unchanged, an
    Authorization header already present included. *)
Theorem interceptor_idempotent (ls : Dict.t) (config : Api.Config) :
  Api.requestInterceptor ls (Api.requestInterceptor ls config) =
    Api.requestInterceptor ls config /\
  (truthy_opt (Dict.get (str "token") ls) = false ->
   Api.requestInterceptor ls config = config).
Proof.
  unfold Api.requestInterceptor.
  destruct (Dict.get (str "token") ls) as [[|c t]|]; repeat split.
  - cbn [Api.headers Api.url]. now rewrite set_set.
  - discriminate.
Qed.

Lemma interceptor_idempotent_witness :
  Api.requestInterceptor [(str "token", [])]
    (Api.mkConfig (str "/jobs/j1") [(str "Authorization", str "Basic x")]) =
  Api.mkConfig (str "/jobs/j1") [(str "Authorization", str "Basic x")].
Proof.
  exact (proj2 (interceptor_idempotent [(str "token", [])]
                  (Api.mkConfig (str "/jobs/j1") [(str "Authorization", str "Basic x")]))
           eq_refl).
Defined.

End AuthProps.

(** ** GitHub callback: properties *)

Module GitHubProps.
Import Auth GitHub DictFacts.

Lemma effect_browser (code err desc : option jsstring) (o : FetchOutcome)
      (p : Page) (b : Browser) :
  snd (effect code err desc o (p, b)) = b \/
  exists c t, snd (effect code err desc o (p, b)) = setItem (str "auth_token") (c :: t) b
              /\ status (fst (effect code err desc o (p, b))) = success.
Proof.
  unfold effect. destruct err as [[|c e]|]; try (now left).
  all: destruct code as [[|c k]|]; try (now left).
  all: unfold exchangeCode; destruct o as [t|[|] [m|m|m [[|c' tok]|]]];
    try (now left); right; now exists c', tok.
Qed.

(** X19.  The GitHub callback never touches the key "token": whatever the
    search parameters and the backend's answer, the route guard decides as
    before and the interceptor treats every request as before, and the
    callback itself navigates nowhere. *)
Theorem github_callback_leaves_token (code err desc : option jsstring)
        (o : FetchOutcome) (p : Page) (b : Browser) (config : Api.Config) :
  let b' := snd (effect code err desc o (p, b)) in
  Dict.get (str "token") (localStorage b') = Dict.get (str "token") (localStorage b) /\
  ProtectedRoute b' = ProtectedRoute b /\
  Api.requestInterceptor (localStorage b') config =
    Api.requestInterceptor (localStorage b) config /\
  navigations b' = navigations b.
Proof.
  intros b'. subst b'.
  assert (E : Dict.get (str "token")
                (localStorage (snd (effect code err desc o (p, b)))) =
              Dict.get (str "token") (localStorage b) /\
              navigations (snd (effect code err desc o (p, b))) = navigations b).
  { destruct (effect_browser code err desc o p b) as [-> | (c & t & -> & _)];
      [now split|].
    cbn [localStorage setItem navigations]. split; [|reflexivity].
    now apply get_set_other. }
  destruct E as [E En].
  unfold ProtectedRoute, Api.requestInterceptor. rewrite E. now repeat split.
Qed.

(** X20.  When the search parameters carry a non-empty [error], the page
    reports an error without contacting the backend, even if a code is
    present: the message is the error description when that is non-empty
    and the error itself otherwise, so it is never empty; nothing is
    stored and no redirect is scheduled. *)
Theorem github_error_parameter_wins (code desc : option jsstring) (c : N) (e : jsstring)
        (o : FetchOutcome) (p : Page) (b : Browser) :
  let w := effect code (Some (c :: e)) desc o (p, b) in
  status (fst w) = error /\
  errorMessage (fst w) = or_else desc (c :: e) /\
  errorMessage (fst w) <> [] /\
  posted (fst w) = posted p /\
  redirectTimers (fst w) = redirectTimers p /\
  snd w = b.
Proof.
  cbn. repeat split. destruct desc as [[|x d]|]; discriminate.
Qed.

(** X21.  The effect always leaves the page in success or error, never
    loading.  It ends in success exactly when there is no error parameter,
    a code is present and the backend answers ok with a body that parses
    to a value other than null; then one redirect timer is armed, the
    error message is untouched and the access token, if non-empty, is
    stored under "auth_token".  In every other case the browser is left as
    it was and no redirect is scheduled. *)
Theorem github_callback_outcome (code err desc : option jsstring) (o : FetchOutcome)
        (p : Page) (b : Browser) :
  let w := effect code err desc o (p, b) in
  status (fst w) <> loading /\
  (status (fst w) = success <->
   truthy_opt err = false /\ truthy_opt code = true /\
   exists m token, o = Responded true (JsonValue m token)) /\
  (forall m token, truthy_opt err = false -> truthy_opt code = true ->
     o = Responded true (JsonValue m token) ->
     redirectTimers (fst w) = S (redirectTimers p) /\
     errorMessage (fst w) = errorMessage p /\
     snd w = match token with
             | Some (c :: t) => setItem (str "auth_token") (c :: t) b
             | _ => b
             end) /\
  (status (fst w) = error ->
     snd w = b /\ redirectTimers (fst w) = redirectTimers p).
Proof.
  intros w. subst w. unfold effect.
  destruct err as [[|c e]|]; cbn [truthy_opt truthy fst snd status failWith
    redirectTimers].
  2: { split; [discriminate|]. split; [split; [discriminate | intros (E & _); discriminate E]|].
       split; [intros m token E; discriminate E | now split]. }
  all: destruct code as [[|c k]|]; cbn [truthy_opt truthy fst snd status failWith
    redirectTimers].
  all: try (split; [discriminate|];
            split; [split; [discriminate | intros (_ & E & _); discriminate E]|];
            split; [intros m token _ E; discriminate E | now split]).
  all: unfold exchangeCode; destruct o as [t|[|] [m|m|m tok]];
    cbn [fst snd status failWith redirectTimers errorMessage posted].
  all: split; [discriminate|].
  all: split;
    [split; [try discriminate; intros _; repeat split; eauto
            | try reflexivity; intros (_ & _ & m' & tok' & E); discriminate E]|].
  all: split; [intros m' tok' _ _ E; try discriminate E;
               injection E as <- <-; repeat split; now destruct tok as [[|c' t']|]|].
  all: try (intros _; now split).
  all: intros E; discriminate E.
Qed.

Lemma github_callback_outcome_witness :
  Dict.get (str "auth_token")
    (localStorage (snd (effect (Some (str "c0de")) None None
                          (Responded true (JsonValue None (Some (str "gho_1"))))
                          (initial, mkBrowser [] [] 0)))) = Some (str "gho_1").
Proof.
  rewrite (proj2 (proj2 (proj1 (proj2 (proj2
             (github_callback_outcome (Some (str "c0de")) None None
                (Responded true (JsonValue None (Some (str "gho_1"))))
                initial (mkBrowser [] [] 0))))
             None (Some (str "gho_1")) eq_refl eq_refl eq_refl))).
  reflexivity.
Defined.

End GitHubProps.

(** ** The landing prompt box: properties *)

Module HeroProps.
Import Hero DictFacts.

Lemma handleSubmit_file (r : UploadReply) (s : Box) :
  file (handleSubmit r s) = file s /\ prompt (handleSubmit r s) = prompt s.
Proof.
  unfold handleSubmit.
  destruct (negb (truthy (trim (prompt s))) && _); [now split|].
  destruct (file s) eqn:E; [destruct r|]; cbn; now rewrite ?E.
Qed.

Lemma step_file (s : Box) (e : Event) :
  (forall f, file s = Some f -> acceptable f = true) ->
  forall f, file (step s e) = Some f -> acceptable f = true.
Proof.
  intros H f. destruct e as [text|files| |r|key shift r]; cbn [step].
  - exact (H f).
  - unfold handleFileChange. destruct files as [|g files]; [exact (H f)|].
    destruct (acceptable g) eqn:Hg; [|exact (H f)].
    cbn [file toast setFile]. intros [= <-]. exact Hg.
  - discriminate.
  - rewrite (proj1 (handleSubmit_file r s)). exact (H f).
  - unfold handleKeyDown. destruct (_ && _); [|exact (H f)].
    rewrite (proj1 (handleSubmit_file r s)). exact (H f).
Qed.

(** X22.  Whatever is typed, chosen, removed or submitted, a file that is
    attached is always a PDF or an image: a selection of any other type is
    refused with an error toast and leaves the earlier attachment in
    place. *)
Theorem attachment_is_pdf_or_image (es : list Event) (s : Box) :
  (forall f, file s = Some f -> acceptable f = true) ->
  (forall f, file (run es s) = Some f -> acceptable f = true) /\
  (forall g files, acceptable g = false ->
     file (handleFileChange (g :: files) s) = file s /\
     toasts (handleFileChange (g :: files) s) =
       toasts s ++ [ToastError (str "Please upload a PDF or Image file")]).
Proof.
  intros H. split.
  - unfold run. revert s H. induction es as [|e es IH]; intros s H; [exact H|].
    simpl. apply IH. now apply step_file.
  - intros g files Hg. unfold handleFileChange. rewrite Hg. now split.
Qed.

Lemma attachment_is_pdf_or_image_witness :
  file (run [FilesChosen [mkFile (str "cv.pdf") (str "application/pdf")];
             FilesChosen [mkFile (str "cv.docx") (str "application/msword")]]
          initial) = Some (mkFile (str "cv.pdf") (str "application/pdf")) /\
  acceptable (mkFile (str "cv.pdf") (str "application/pdf")) = true.
Proof.
  split; [reflexivity|].
  exact (proj1 (attachment_is_pdf_or_image
                  [FilesChosen [mkFile (str "cv.pdf") (str "application/pdf")];
                   FilesChosen [mkFile (str "cv.docx") (str "application/msword")]]
                  initial (fun f E => match E in _ = x return
                                              match x with Some _ => _ | None => True end
                                        with eq_refl => I end))
           _ eq_refl).
Defined.

Lemma submit_with_file (r : UploadReply) (s : Box) (f : File) :
  file s = Some f ->
  let s' := handleSubmit r s in
  uploads s' = uploads s ++ [f] /\ isUploading s' = false /\
  match r with
  | Uploaded jobId =>
      navigations s' = navigations s ++ [editorParams (prompt s) jobId (Some f)] /\
      toasts s' = toasts s ++ [ToastSuccess (str "Resume uploaded successfully!")] /\
      consoleErrors s' = consoleErrors s
  | _ =>
      navigations s' = navigations s /\
      toasts s' = toasts s ++
                  [ToastError (str "Failed to upload resume. Please try again.")] /\
      consoleErrors s' = S (consoleErrors s)
  end.
Proof.
  intros E. unfold handleSubmit. rewrite E, andb_false_r.
  destruct r; now repeat split.
Qed.

(** X23.  A submit never changes the prompt or the attachment.  With a
    blank prompt and no file it changes nothing at all.  With a file it
    posts that file once and ends with the uploading flag cleared: if the
    upload answers with data it shows a success toast and navigates once,
    with the parameters built from prompt, job id and file; otherwise it
    shows an error toast, logs the error and does not navigate.  With a
    prompt and no file it navigates once with the prompt as only
    parameter, posting nothing. *)
Theorem submit_outcomes (r : UploadReply) (s : Box) :
  let s' := handleSubmit r s in
  prompt s' = prompt s /\ file s' = file s /\
  (truthy (trim (prompt s)) = false -> file s = None -> s' = s) /\
  (forall f, file s = Some f ->
     uploads s' = uploads s ++ [f] /\ isUploading s' = false /\
     match r with
     | Uploaded jobId =>
         navigations s' = navigations s ++ [editorParams (prompt s) jobId (Some f)] /\
         toasts s' = toasts s ++ [ToastSuccess (str "Resume uploaded successfully!")] /\
         consoleErrors s' = consoleErrors s
     | _ =>
         navigations s' = navigations s /\
         toasts s' = toasts s ++
                     [ToastError (str "Failed to upload resume. Please try again.")] /\
         consoleErrors s' = S (consoleErrors s)
     end) /\
  (truthy (trim (prompt s)) = true -> file s = None ->
     uploads s' = uploads s /\ isUploading s' = false /\ toasts s' = toasts s /\
     navigations s' = navigations s ++ [[(str "prompt", prompt s)]]).
Proof.
  intros s'. subst s'.
  destruct (handleSubmit_file r s) as [Hf Hp].
  split; [exact Hp|]. split; [exact Hf|].
  split; [|split].
  - unfold handleSubmit. intros Hb Hn. now rewrite Hb, Hn.
  - intros f E. exact (submit_with_file r s f E).
  - unfold handleSubmit. intros Hb Hn. rewrite Hb, Hn. cbn [negb andb].
    unfold editorParams. rewrite Hb. now repeat split.
Qed.

Lemma submit_outcomes_witness :
  navigations (handleSubmit UploadRejected
                 (mkBox (str "hi") (Some (mkFile (str "cv.pdf") (str "application/pdf")))
                    false [] [] [] 0)) = [].
Proof.
  exact (proj1 (proj2 (proj2 (proj1 (proj2 (proj2 (proj2
           (submit_outcomes UploadRejected
              (mkBox (str "hi") (Some (mkFile (str "cv.pdf") (str "application/pdf")))
                 false [] [] [] 0)))))
           (mkFile (str "cv.pdf") (str "application/pdf")) eq_refl)))).
Defined.

(** X24.  The submit button is disabled while an upload is in progress,
    but the Enter key is not: with a file attached, Enter without Shift
    runs the submit again and posts the file once more.  Enter with Shift,
    and every other key, does nothing. *)
Theorem enter_submits_while_uploading (r : UploadReply) (s : Box) (f : File)
        (key : jsstring) :
  file s = Some f -> isUploading s = true ->
  submitDisabled s = true /\
  handleKeyDown (str "Enter") false r s = handleSubmit r s /\
  uploads (handleKeyDown (str "Enter") false r s) = uploads s ++ [f] /\
  handleKeyDown (str "Enter") true r s = s /\
  (strict_eq key (str "Enter") = false -> handleKeyDown key false r s = s).
Proof.
  intros Hf Hu. split; [|split; [|split; [|split]]].
  - unfold submitDisabled. rewrite Hu. apply orb_true_r.
  - reflexivity.
  - change (handleKeyDown (str "Enter") false r s) with (handleSubmit r s).
    exact (proj1 (submit_with_file r s f Hf)).
  - reflexivity.
  - intros Hk. unfold handleKeyDown. now rewrite Hk.
Qed.

Lemma enter_submits_while_uploading_witness :
  uploads (handleKeyDown (str "Enter") false (Uploaded None)
             (mkBox [] (Some (mkFile (str "cv.pdf") (str "application/pdf")))
                true [] [] [mkFile (str "cv.pdf") (str "application/pdf")] 0)) =
  [mkFile (str "cv.pdf") (str "application/pdf");
   mkFile (str "cv.pdf") (str "application/pdf")].
Proof.
  exact (proj1 (proj2 (proj2
           (enter_submits_while_uploading (Uploaded None)
              (mkBox [] (Some (mkFile (str "cv.pdf") (str "application/pdf")))
                 true [] [] [mkFile (str "cv.pdf") (str "application/pdf")] 0)
              (mkFile (str "cv.pdf") (str "application/pdf")) (str "a")
              eq_refl eq_refl)))).
Defined.

(** What the editor reads from the parameters the prompt box builds. *)
Lemma editorParams_get (p : jsstring) (jobId : option jsstring) (f : option File) :
  Dict.get (str "prompt") (editorParams p jobId f) =
    (if truthy (trim p) then Some p else None) /\
  Dict.get (str "jobId") (editorParams p jobId f) =
    (match jobId with Some (c :: j) => Some (c :: j) | _ => None end) /\
  Dict.get (str "fileName") (editorParams p jobId f) = option_map name f.
Proof.
  unfold editorParams.
  destruct (truthy (trim p)), jobId as [[|c j]|], f as [f|]; cbn [option_map];
    repeat split;
    repeat first [ rewrite get_set_same
                 | rewrite get_set_other by reflexivity
                 | reflexivity ].
Qed.

End HeroProps.

(** ** From the prompt box to the editor *)

Module AppProps.
Import Polling DictFacts HeroProps.

Lemma blank_or_kept (p : jsstring) :
  or_else (if truthy (trim p) then Some p else None) [] =
  (if truthy (trim p) then p else []).
Proof.
  destruct p as [|c p]; [reflexivity|].
  now destruct (truthy (trim (c :: p))).
Qed.

(** X25.  When an upload answers with a non-empty job id, the parameters
    the prompt box navigates with make the editor, for a visitor whose
    token is stored, start polling that job: both timers armed, the job
    pending, the generating flag set, and a timeline of the user's turn
    (the prompt if not blank, the file name, the job id) and the
    acknowledgement naming file and job.  Without a stored token the route
    guard renders no editor, although the file has been uploaded. *)
Theorem upload_opens_polling_editor (s : Hero.Box) (f : Hero.File) (c : N) (j : jsstring)
        (b : Auth.Browser) :
  Hero.file s = Some f ->
  let s' := Hero.handleSubmit (Hero.Uploaded (Some (c :: j))) s in
  let params := Hero.editorParams (Hero.prompt s) (Some (c :: j)) (Some f) in
  let initialPrompt := if truthy (trim (Hero.prompt s)) then Hero.prompt s else [] in
  Hero.navigations s' = Hero.navigations s ++ [params] /\
  Hero.uploads s' = Hero.uploads s ++ [f] /\
  (truthy_opt (Dict.get (str "token") (Auth.localStorage b)) = true ->
   exists e, App.editorRoute b params = Some e /\
     intervalId e = true /\ timeoutId e = true /\ isGenerating e = true /\
     jobStatus e = Some (pendingJob (c :: j)) /\
     messages e =
       [mkMessage user (userContent initialPrompt (Some (Hero.name f)) (Some (c :: j)));
        mkMessage assistant (receivedResumeText (Some (Hero.name f)) (c :: j))]) /\
  (truthy_opt (Dict.get (str "token") (Auth.localStorage b)) = false ->
   App.editorRoute b params = None).
Proof.
  intros Hf s' params initialPrompt. subst s' params initialPrompt.
  destruct (submit_with_file (Hero.Uploaded (Some (c :: j))) s f Hf) as (Hu & _ & Hn & _).
  split; [exact Hn|]. split; [exact Hu|].
  unfold App.editorRoute, Auth.ProtectedRoute.
  destruct (editorParams_get (Hero.prompt s) (Some (c :: j)) (Some f)) as (-> & -> & ->).
  split; intros Ht; rewrite Ht; [|reflexivity].
  eexists. split; [reflexivity|].
  unfold effect. rewrite !orb_true_r, blank_or_kept.
  cbn [option_map]. now repeat split.
Qed.

Lemma upload_opens_polling_editor_witness :
  App.editorRoute (Auth.mkBrowser [] [] 0)
    (Hero.editorParams (str "my site") (Some (str "j1"))
       (Some (Hero.mkFile (str "cv.pdf") (str "application/pdf")))) = None.
Proof.
  exact (proj2 (proj2 (proj2
           (upload_opens_polling_editor
              (Hero.mkBox (str "my site")
                 (Some (Hero.mkFile (str "cv.pdf") (str "application/pdf")))
                 false [] [] [] 0)
              (Hero.mkFile (str "cv.pdf") (str "application/pdf"))
              106%N (str "1") (Auth.mkBrowser [] [] 0) eq_refl))) eq_refl).
Defined.

(** X26.  When an upload answers without a job id (or with an empty one),
    the prompt box still navigates, with the file name but no job id, and
    the editor it opens arms no poller: no timer, no job snapshot, only
    the generating flag with its idle timer and an assistant turn that
    offers to build a page or an application. *)
Theorem upload_without_job_id_polls_nothing (s : Hero.Box) (f : Hero.File)
        (jobId : option jsstring) (b : Auth.Browser) :
  Hero.file s = Some f ->
  truthy_opt jobId = false ->
  truthy (Hero.name f) = true ->
  truthy_opt (Dict.get (str "token") (Auth.localStorage b)) = true ->
  let s' := Hero.handleSubmit (Hero.Uploaded jobId) s in
  let params := Hero.editorParams (Hero.prompt s) jobId (Some f) in
  let initialPrompt := if truthy (trim (Hero.prompt s)) then Hero.prompt s else [] in
  Hero.navigations s' = Hero.navigations s ++ [params] /\
  Dict.get (str "jobId") params = None /\
  exists e, App.editorRoute b params = Some e /\
    intervalId e = false /\ timeoutId e = false /\ jobStatus e = None /\
    isGenerating e = true /\ idleTimers e = 1 /\
    messages e =
      [mkMessage user (userContent initialPrompt (Some (Hero.name f)) None);
       mkMessage assistant (willHelpText initialPrompt)].
Proof.
  intros Hf Hj Hname Ht s' params initialPrompt. subst s' params initialPrompt.
  destruct (submit_with_file (Hero.Uploaded jobId) s f Hf) as (_ & _ & Hn & _).
  split; [exact Hn|].
  destruct (editorParams_get (Hero.prompt s) jobId (Some f)) as (Ep & Ej & Ef).
  assert (Ej' : Dict.get (str "jobId") (Hero.editorParams (Hero.prompt s) jobId (Some f))
                = None).
  { rewrite Ej. destruct jobId as [[|c j]|]; [reflexivity|discriminate Hj|reflexivity]. }
  split; [exact Ej'|].
  unfold App.editorRoute, Auth.ProtectedRoute. rewrite Ht, Ep, Ej', Ef.
  eexists. split; [reflexivity|].
  unfold effect. cbn [option_map truthy_opt]. rewrite Hname, blank_or_kept.
  rewrite orb_true_r. cbn [orb]. now repeat split.
Qed.

Lemma upload_without_job_id_polls_nothing_witness :
  Dict.get (str "jobId")
    (Hero.editorParams [] None
       (Some (Hero.mkFile (str "cv.pdf") (str "application/pdf")))) = None.
Proof.
  exact (proj1 (proj2
           (upload_without_job_id_polls_nothing
              (Hero.mkBox [] (Some (Hero.mkFile (str "cv.pdf") (str "application/pdf")))
                 false [] [] [] 0)
              (Hero.mkFile (str "cv.pdf") (str "application/pdf")) None
              (Auth.mkBrowser [(str "token", str "t")] [] 0)
              eq_refl eq_refl eq_refl eq_refl))).
Defined.

End AppProps.

(** ** The poller with its requests in flight: properties *)

Module InFlightProps.
Import Polling InFlight.

Lemma nth_error_snoc (ps : list Poll) (p : Poll) :
  nth_error (ps ++ [p]) (length ps) = Some p.
Proof. induction ps as [|q ps IH]; [reflexivity | exact IH]. Qed.

Lemma setPhase_snoc (ps : list Poll) (p : Poll) (ph : Phase) :
  setPhase (length ps) ph (ps ++ [p]) = ps ++ [mkPoll (origin p) ph].
Proof. induction ps as [|q ps IH]; [reflexivity | simpl; now rewrite IH]. Qed.

Lemma setPhase_length (i : nat) (ph : Phase) (ps : list Poll) :
  length (setPhase i ph ps) = length ps.
Proof.
  revert i. induction ps as [|p ps IH]; intros [|i]; simpl; try reflexivity.
  now rewrite IH.
Qed.

Lemma setPhase_nth (i : nat) (ph : Phase) (ps : list Poll) (p : Poll) :
  nth_error ps i = Some p ->
  nth_error (setPhase i ph ps) i = Some (mkPoll (origin p) ph).
Proof.
  revert i. induction ps as [|q ps IH]; intros [|i]; simpl; try discriminate.
  - now intros [= ->].
  - apply IH.
Qed.

Lemma statusRequests_snoc_portfolio (rs : list Request) (j : jsstring) :
  statusRequests (rs ++ [GetPortfolio j]) = statusRequests rs.
Proof.
  unfold statusRequests. rewrite filter_app, length_app. simpl. lia.
Qed.

(** Going on after an answer touches no timer handle and starts no status
    request. *)
Lemma afterStatus_keeps (jobId : jsstring) (r : Reply JobStatusData) (s : Editor) :
  intervalId (fst (afterStatus jobId r s)) = intervalId s /\
  timeoutId (fst (afterStatus jobId r s)) = timeoutId s /\
  statusRequests (requests (fst (afterStatus jobId r s))) = statusRequests (requests s).
Proof.
  destruct r as [d|e]; unfold afterStatus, pollCatch.
  - destruct (JobStatus_eqb (status d) completed && _).
    + cbn [fst intervalId timeoutId requests apiGet applySnapshot setMessages setJobStatus].
      now rewrite statusRequests_snoc_portfolio.
    + destruct (JobStatus_eqb (status d) failed); now repeat split.
  - destruct (status_is 404 e); now repeat split.
Qed.

Lemma afterPortfolio_keeps (r : Reply Payload) (s : Editor) :
  intervalId (fst (afterPortfolio r s)) = intervalId s /\
  timeoutId (fst (afterPortfolio r s)) = timeoutId s /\
  statusRequests (requests (fst (afterPortfolio r s))) = statusRequests (requests s).
Proof.
  destruct r as [[|body]|e]; unfold afterPortfolio, portfolioCatch;
    try (destruct (_ || _)); now repeat split.
Qed.

Lemma resume_keeps (from : Origin) (b : bool) (s : Editor) :
  (intervalId s = false -> intervalId (resume from b s) = false) /\
  timeoutId (resume from b s) = timeoutId s /\
  requests (resume from b s) = requests s.
Proof. destruct from, b; now repeat split. Qed.

(** A call whose answers arrive with nothing in between is the call of
    [pollJobStatus] taken in one piece, followed by what its caller does
    with the result. *)
Lemma poll_in_one_piece (jobId : jsstring) (from : Origin) (o : PollOutcome) (w : World) :
  let i := length (polls w) in
  editor (step jobId
            (step jobId (start jobId from w) (StatusArrived i (status_reply o)))
            (PortfolioArrived i (portfolio_reply o))) =
  resume from (snd (pollJobStatus jobId o (editor w)))
    (fst (pollJobStatus jobId o (editor w))).
Proof.
  destruct w as [s ps], o as [sr pr]. cbn [polls editor status_reply portfolio_reply].
  unfold start. cbn [polls editor step].
  rewrite nth_error_snoc.
  unfold afterStatus, pollJobStatus. cbn [status_reply portfolio_reply].
  destruct sr as [d|e].
  - destruct (JobStatus_eqb (status d) completed && truthy_opt (portfolio_id d)).
    + cbn [polls editor step]. rewrite setPhase_snoc, nth_error_snoc.
      cbn [origin]. unfold afterPortfolio.
      destruct pr as [[|body]|e]; try reflexivity;
        unfold portfolioCatch; destruct (_ || _); reflexivity.
    + destruct (JobStatus_eqb (status d) failed);
        cbn [polls editor step]; rewrite setPhase_snoc, nth_error_snoc; reflexivity.
  - unfold pollCatch. destruct (status_is 404 e);
      cbn [polls editor step]; rewrite setPhase_snoc, nth_error_snoc; reflexivity.
Qed.

Lemma step_after_clear (jobId : jsstring) (w : World) (e : Event) :
  intervalId (editor w) = false ->
  intervalId (editor (step jobId w e)) = false /\
  length (polls (step jobId w e)) = length (polls w) /\
  statusRequests (requests (editor (step jobId w e))) =
    statusRequests (requests (editor w)).
Proof.
  intros H. destruct e as [|i r|i r| |]; cbn [step].
  - now rewrite H.
  - destruct (nth_error (polls w) i) as [[from [|d|b]]|]; try now repeat split.
    destruct (afterStatus_keeps jobId r (editor w)) as (Hi & _ & Hr).
    destruct (afterStatus jobId r (editor w)) as [s' ph].
    cbn [fst] in Hi, Hr. cbn [editor polls]. rewrite setPhase_length.
    destruct ph as [|d|b]; try (rewrite Hi, Hr; now repeat split).
    destruct (resume_keeps from b s') as (Ri & _ & Rr).
    rewrite Rr, Hr. repeat split. apply Ri. now rewrite Hi.
  - destruct (nth_error (polls w) i) as [[from [|d|b]]|]; try now repeat split.
    destruct (afterPortfolio_keeps r (editor w)) as (Hi & _ & Hr).
    destruct (afterPortfolio r (editor w)) as [s' b].
    cbn [fst] in Hi, Hr. cbn [editor polls]. rewrite setPhase_length.
    destruct (resume_keeps from b s') as (Ri & _ & Rr).
    rewrite Rr, Hr. repeat split. apply Ri. now rewrite Hi.
  - cbn [editor polls]. unfold deadline.
    destruct (timeoutId (editor w)); [|now repeat split].
    destruct (notFinished _); now repeat split.
  - now repeat split.
Qed.

Lemma run_after_clear (jobId : jsstring) (es : list Event) (w : World) :
  intervalId (editor w) = false ->
  intervalId (editor (run jobId es w)) = false /\
  length (polls (run jobId es w)) = length (polls w) /\
  statusRequests (requests (editor (run jobId es w))) =
    statusRequests (requests (editor w)).
Proof.
  unfold run. revert w. induction es as [|e es IH]; intros w H; [now repeat split|].
  simpl. destruct (step_after_clear jobId w e H) as (Hi & Hl & Hr).
  destruct (IH _ Hi) as (-> & -> & ->). now repeat split.
Qed.

Lemma returned_poll (ps : list Poll) (i : nat) :
  allReturned ps = true ->
  match nth_error ps i with
  | Some (mkPoll _ (Returned _)) | None => True
  | _ => False
  end.
Proof.
  revert i. induction ps as [|p ps IH]; intros [|i] H; simpl; try exact I.
  - simpl in H. apply andb_true_iff in H as [H _].
    destruct p as [from [|d|b]]; simpl in *; try discriminate; exact I.
  - simpl in H. apply andb_true_iff in H as [_ H]. now apply IH.
Qed.

Lemma step_at_rest (jobId : jsstring) (w : World) (e : Event) :
  intervalId (editor w) = false -> timeoutId (editor w) = false ->
  allReturned (polls w) = true ->
  step jobId w e = w.
Proof.
  intros Hi Ht Hr. destruct e as [|i r|i r| |]; cbn [step].
  - now rewrite Hi.
  - pose proof (returned_poll (polls w) i Hr) as P.
    destruct (nth_error (polls w) i) as [[from [|d|b]]|]; try reflexivity; contradiction.
  - pose proof (returned_poll (polls w) i Hr) as P.
    destruct (nth_error (polls w) i) as [[from [|d|b]]|]; try reflexivity; contradiction.
  - unfold deadline. rewrite Ht. now destruct w.
  - destruct w as [s ps]. cbn [editor polls] in *. f_equal.
    destruct s; simpl in *. now subst.
Qed.

Lemma run_at_rest (jobId : jsstring) (es : list Event) (w : World) :
  intervalId (editor w) = false -> timeoutId (editor w) = false ->
  allReturned (polls w) = true ->
  run jobId es w = w.
Proof.
  intros Hi Ht Hr. unfold run. induction es as [|e es IH]; [reflexivity|].
  simpl. now rewrite (step_at_rest jobId w e Hi Ht Hr).
Qed.

(** Two calls made by the interval before either is answered: the first
    one, answered that the job failed, clears the interval; the second
    one, answered afterwards, still appends its failure message. *)
Lemma call_in_flight_still_reports :
  let w0 := run Scenarios.job1 [IntervalFired; IntervalFired]
              (mkWorld Scenarios.page []) in
  let w1 := step Scenarios.job1 w0 (StatusArrived 0 (Resolved Scenarios.broken)) in
  let w2 := step Scenarios.job1 w1 (StatusArrived 1 (Resolved Scenarios.broken)) in
  length (polls w0) = 2 /\
  intervalId (editor w1) = false /\
  messages (editor w2) =
    messages (editor w1) ++ [mkMessage assistant (failureText Scenarios.broken)].
Proof. vm_compute. repeat split. Qed.

(** C2, amended.  A call of [pollJobStatus] made by the interval callback
    clears the interval when it returns after a snapshot that reports
    failed, or after a snapshot that reports completed with a portfolio
    id followed by a portfolio request answered 200 with a document.
    Once the interval is cleared no event starts a call again: the calls
    and the status requests stay as many as they are, and when moreover
    no call is awaiting an answer and the deadline timer is off, nothing
    changes any more.  A call returns [false] and leaves the interval as
    it is after a snapshot that reports cancelled, or reports completed
    without a portfolio id, and after a portfolio request that is
    rejected (a status outside 200-299, or no response) or answered 200
    with a null body. *)
Theorem interval_cleared_on_stop_signal (jobId : jsstring) (w : World) (i : nat)
        (d : JobStatusData) (es : list Event) :
  (nth_error (polls w) i = Some (mkPoll IntervalCall AwaitingStatus) ->
   status d = failed ->
   let w' := step jobId w (StatusArrived i (Resolved d)) in
   nth_error (polls w') i = Some (mkPoll IntervalCall (Returned true)) /\
   intervalId (editor w') = false) /\
  (nth_error (polls w) i = Some (mkPoll IntervalCall AwaitingStatus) ->
   status d = completed -> truthy_opt (portfolio_id d) = true ->
   let w' := step jobId w (StatusArrived i (Resolved d)) in
   nth_error (polls w') i = Some (mkPoll IntervalCall (AwaitingPortfolio d)) /\
   intervalId (editor w') = intervalId (editor w) /\
   requests (editor w') = requests (editor w) ++ [GetPortfolio jobId]) /\
  (nth_error (polls w) i = Some (mkPoll IntervalCall (AwaitingPortfolio d)) ->
   forall body,
   let w' := step jobId w
               (PortfolioArrived i
                  (Http.axiosSettle (Http.HttpResponse 200 (Document body)))) in
   nth_error (polls w') i = Some (mkPoll IntervalCall (Returned true)) /\
   intervalId (editor w') = false) /\
  (intervalId (editor w) = false ->
   let w' := run jobId es w in
   intervalId (editor w') = false /\
   length (polls w') = length (polls w) /\
   statusRequests (requests (editor w')) = statusRequests (requests (editor w))) /\
  (intervalId (editor w) = false -> timeoutId (editor w) = false ->
   allReturned (polls w) = true ->
   run jobId es w = w) /\
  (nth_error (polls w) i = Some (mkPoll IntervalCall AwaitingStatus) ->
   status d = cancelled \/
   (status d = completed /\ truthy_opt (portfolio_id d) = false) ->
   let w' := step jobId w (StatusArrived i (Resolved d)) in
   nth_error (polls w') i = Some (mkPoll IntervalCall (Returned false)) /\
   intervalId (editor w') = intervalId (editor w)) /\
  (nth_error (polls w) i = Some (mkPoll IntervalCall (AwaitingPortfolio d)) ->
   forall h,
   h = Http.NoResponse \/ h = Http.HttpResponse 200 Nullish \/
   (exists code data, h = Http.HttpResponse code data /\
                      ((code <? 200)%N || (300 <=? code)%N) = true) ->
   let w' := step jobId w (PortfolioArrived i (Http.axiosSettle h)) in
   nth_error (polls w') i = Some (mkPoll IntervalCall (Returned false)) /\
   intervalId (editor w') = intervalId (editor w)).
Proof.
  split; [|split; [|split; [|split; [|split; [|split]]]]].
  - intros Hp Hd. cbn [step]. rewrite Hp. unfold afterStatus. rewrite Hd.
    cbn [JobStatus_eqb andb polls editor resume].
    split; [now apply (setPhase_nth i _ _ _ Hp) | reflexivity].
  - intros Hp Hd Hid. cbn [step]. rewrite Hp. unfold afterStatus. rewrite Hd, Hid.
    cbn [JobStatus_eqb andb polls editor].
    split; [now apply (setPhase_nth i _ _ _ Hp)|]. split; reflexivity.
  - intros Hp body. cbn [step]. rewrite Hp.
    cbn [Http.axiosSettle afterPortfolio polls editor resume].
    split; [now apply (setPhase_nth i _ _ _ Hp) | reflexivity].
  - intros H. now apply run_after_clear.
  - intros Hi Ht Hr. now apply run_at_rest.
  - intros Hp Hd. cbn [step]. rewrite Hp. unfold afterStatus.
    destruct Hd as [-> | [-> ->]]; cbn [JobStatus_eqb andb polls editor resume];
      (split; [now apply (setPhase_nth i _ _ _ Hp) | reflexivity]).
  - intros Hp h Hh. cbn [step]. rewrite Hp.
    assert (E : afterPortfolio (Http.axiosSettle h) (editor w) =
                (fst (afterPortfolio (Http.axiosSettle h) (editor w)), false)).
    { destruct Hh as [-> | [-> | (code & data & -> & Hc)]].
      - reflexivity.
      - reflexivity.
      - unfold Http.axiosSettle.
        apply orb_true_iff in Hc.
        assert (Hr : (200 <=? code)%N && (code <? 300)%N = false).
        { destruct Hc as [Hc | Hc].
          - apply N.ltb_lt in Hc. apply andb_false_iff. left. apply N.leb_gt. exact Hc.
          - apply N.leb_le in Hc. apply andb_false_iff. right. apply N.ltb_ge. exact Hc. }
        rewrite Hr. unfold afterPortfolio, portfolioCatch.
        destruct (_ || _); reflexivity. }
    rewrite E. cbn [polls editor resume].
    split; [now apply (setPhase_nth i _ _ _ Hp)|].
    exact (proj1 (afterPortfolio_keeps (Http.axiosSettle h) (editor w))).
Qed.

(** Witness of C2 (amended): on the page opened for job j1 the interval
    fires and its call is answered that the job failed; three more events
    follow. *)
Lemma interval_cleared_on_stop_signal_witness :
  let w := step Scenarios.job1 (mkWorld Scenarios.page []) IntervalFired in
  let w' := step Scenarios.job1 w (StatusArrived 0 (Resolved Scenarios.broken)) in
  nth_error (polls w) 0 = Some (mkPoll IntervalCall AwaitingStatus) /\
  status Scenarios.broken = failed /\
  intervalId (editor w') = false /\
  length (polls (run Scenarios.job1
                   [IntervalFired; IntervalFired; DeadlineFired] w')) = 1.
Proof.
  split; [reflexivity|]. split; [reflexivity|].
  pose proof (interval_cleared_on_stop_signal Scenarios.job1
                (step Scenarios.job1 (mkWorld Scenarios.page []) IntervalFired)
                0 Scenarios.broken []) as (H1 & _).
  destruct (H1 eq_refl eq_refl) as [_ Hoff].
  split; [exact Hoff|].
  pose proof (interval_cleared_on_stop_signal Scenarios.job1
                (step Scenarios.job1
                   (step Scenarios.job1 (mkWorld Scenarios.page []) IntervalFired)
                   (StatusArrived 0 (Resolved Scenarios.broken)))
                0 Scenarios.broken [IntervalFired; IntervalFired; DeadlineFired])
    as (_ & _ & _ & H4 & _).
  exact (proj1 (proj2 (H4 Hoff))).
Defined.

End InFlightProps.
